(** * auto-snake: the C++ automation core (cpp_extensions/automation_core.cpp)

    A shallow embedding of the matching-and-analysis engine: the single
    matcher [parallel_template_match], the multi-template matcher
    [multi_template_match] with its Python entry point
    [cpp_multi_template_match], the health analyzer [detect_health_parallel]
    and the batch entry point [cpp_batch_process_screenshots].

    Conventions of the model.
    - A C++ [double] is a binary64 primitive float; [a >= b] is
      [PrimFloat.leb b a] and [a < b] is [PrimFloat.ltb a b].
    - A C++ [int] is a [Z]; where the source multiplies two ints or narrows a
      wider integer the 32-bit wrap-around is written out ([int_wrap]).
    - The OpenCV operations whose results the engine only passes on
      (matchTemplate, minMaxLoc, cvtColor) are fields of an environment
      [Env]; they may raise.  inRange, the matrix sum, countNonZero and the
      sub-matrix operator are modelled by their documented semantics.
    - A function body is a computation over its local frame and the [World]
      (log lines, the trace of invocations, the count of thread launches and
      the pending Python error).  A raised exception keeps the frame as it was
      when raised, as a C++ [try] block does with the locals outside of it.
    - Tasks started with [std::async] share nothing but the log; the model
      runs each of them to completion when it is launched, and the results
      are collected in launch order as the source does.
    - A [return] inside a try block ends the function; what follows the block
      in the source is the time measurement only, so the model lets such a
      branch fall out of the block.
    - The trace is ghost state: it records each call of an environment
      primitive, each entry into the single matcher and each call of the
      Python C API made by a thread that does not hold the GIL, nothing else.
    - The two entry points that release the GIL around C++ work while they
      still reach the C API ([cpp_multi_template_match] and
      [cpp_batch_process_screenshots]) track in their frame whether the
      calling thread holds the GIL.  A C API call without the GIL is undefined
      behaviour: the model records [EvNoGIL] and goes on as a build in which
      the call is sound would; a run whose trace holds [EvNoGIL] is undefined
      in the source, and nothing the model returns for it is a statement
      about the program.
    - An array is taken to be C-contiguous where the source converts it
      while the GIL is released (the health entry point and the benchmark):
      the copy that [pyarray_to_mat] would ask NumPy for there is not
      modelled as a C API call.
    - Wall-clock measurements ([processing_time_ms], the time stamp of a log
      line) and the reference counts of Python objects are left out, and so
      are failing memory allocations, except that of the dictionary a batch
      task creates, whose null result the source tests for. *)

From Stdlib Require Import ZArith List String Bool Lia Floats DecimalString.
Import ListNotations.
Local Open Scope Z_scope.
Set Warnings "-inexact-float".

(** ** Machine integers and doubles *)

Definition INT_MAX : Z := 2147483647.

(** Narrowing to a 32-bit two's complement [int]. *)
Definition int_wrap (z : Z) : Z := (z + 2147483648) mod 4294967296 - 2147483648.

Definition int_mul (a b : Z) : Z := int_wrap (a * b).

(** [static_cast<double>(n)] for an [int] n (exact: |n| < 2^53). *)
Definition double_of_int (n : Z) : float :=
  if n <? 0 then PrimFloat.opp (PrimFloat.of_uint63 (Uint63.of_Z (- n)))
  else PrimFloat.of_uint63 (Uint63.of_Z n).

(** [a >= b] and [a < b] on doubles. *)
Definition double_ge (a b : float) : bool := PrimFloat.leb b a.
Definition double_lt (a b : float) : bool := PrimFloat.ltb a b.

(** ** Images *)

Record Point := mkPoint { Point_x : Z; Point_y : Z }.

Definition origin : Point := mkPoint 0 0.

Record Rect := mkRect { Rect_x : Z; Rect_y : Z; Rect_width : Z; Rect_height : Z }.

(** A [cv::Mat] of 8-bit elements: [data] lists the pixels row by row, each
    pixel being the list of its channel values. *)
Record Mat := mkMat {
  rows : Z;
  cols : Z;
  channels : Z;
  data : list (list Z)
}.

(** The score surface cv::matchTemplate writes (one float per position). *)
Record ScoreMat := mkScoreMat {
  score_rows : Z;
  score_cols : Z;
  scores : list float
}.

(** [cv::Mat::empty()]: no element. *)
Definition Mat_empty (m : Mat) : bool := (rows m * cols m =? 0).

(** ** Exceptions *)

(** [cv::Exception] derives from [std::exception]; the handlers of the source
    test for it first. *)
Inductive exn :=
| cv_Exception (what : string)
| std_exception (what : string).

Definition what (e : exn) : string :=
  match e with cv_Exception s => s | std_exception s => s end.

Inductive outcome (A : Type) :=
| Normal (a : A)
| Throw (e : exn).
Arguments Normal {A} a.
Arguments Throw {A} e.

(** ** OpenCV operations modelled by their documented semantics *)

(** [m(roi)]: the sub-matrix header; OpenCV asserts that the rectangle lies
    inside the matrix. *)
Definition Mat_roi (m : Mat) (roi : Rect) : outcome Mat :=
  if (0 <=? Rect_x roi) && (0 <=? Rect_width roi)
     && (Rect_x roi + Rect_width roi <=? cols m)
     && (0 <=? Rect_y roi) && (0 <=? Rect_height roi)
     && (Rect_y roi + Rect_height roi <=? rows m)
  then
    Normal (mkMat (Rect_height roi) (Rect_width roi) (channels m)
      (flat_map
         (fun r => firstn (Z.to_nat (Rect_width roi))
                     (skipn (r * Z.to_nat (cols m) + Z.to_nat (Rect_x roi)) (data m)))
         (seq (Z.to_nat (Rect_y roi)) (Z.to_nat (Rect_height roi)))))
  else Throw (cv_Exception "Assertion failed (0 <= roi.x && 0 <= roi.width && roi.x + roi.width <= m.cols && 0 <= roi.y && 0 <= roi.height && roi.y + roi.height <= m.rows)").

(** A [cv::Scalar] holds four values. *)
Definition Scalar (v0 v1 v2 : Z) : list Z := [v0; v1; v2; 0].

(** Per-channel inclusive range test of one pixel. *)
Fixpoint pixel_in_range (px lowerb upperb : list Z) : bool :=
  match px, lowerb, upperb with
  | [], _, _ => true
  | v :: px', lo :: lowerb', hi :: upperb' =>
      (lo <=? v) && (v <=? hi) && pixel_in_range px' lowerb' upperb'
  | _, _, _ => false
  end.

(** [cv::inRange]: a one-channel mask, 255 where every channel is in range. *)
Definition inRange (src : Mat) (lowerb upperb : list Z) : Mat :=
  mkMat (rows src) (cols src) 1
        (map (fun px => [if pixel_in_range px lowerb upperb then 255 else 0]) (data src)).

Definition saturate_uchar (z : Z) : Z := Z.max 0 (Z.min 255 z).

Definition pixel_add (p q : list Z) : list Z :=
  map (fun uv => saturate_uchar (fst uv + snd uv)) (combine p q).

(** [a + b] on 8-bit matrices: the saturating element-wise sum; the sizes and
    types must agree. *)
Definition Mat_add (a b : Mat) : outcome Mat :=
  if (rows a =? rows b) && (cols a =? cols b) && (channels a =? channels b)
  then Normal (mkMat (rows a) (cols a) (channels a)
                     (map (fun pq => pixel_add (fst pq) (snd pq))
                          (combine (data a) (data b))))
  else Throw (cv_Exception "The operation is neither 'array op array' (where arrays have the same size and the same number of channels), nor 'array op scalar', nor 'scalar op array'").

Definition pixel_nonzero (px : list Z) : bool :=
  existsb (fun v => negb (v =? 0)) px.

(** [cv::countNonZero], defined on one-channel matrices. *)
Definition countNonZero (src : Mat) : outcome Z :=
  if channels src =? 1
  then Normal (Z.of_nat (List.length (filter pixel_nonzero (data src))))
  else Throw (cv_Exception "Assertion failed (cn == 1)").

(** The union of two masks as the design document words it: the element-wise
    logical OR.  (Not part of the source; compared with [Mat_add] below.) *)
Definition mask_union (a b : Mat) : Mat :=
  mkMat (rows a) (cols a) (channels a)
        (map (fun pq => map (fun uv => Z.lor (fst uv) (snd uv))
                            (combine (fst pq) (snd pq)))
             (combine (data a) (data b))).

(** ** NumPy arrays and Python objects, as the C API shows them *)

Record PyArrayObject := mkPyArray {
  shape : list Z;          (* PyArray_DIM for each axis *)
  elements : list Z        (* the elements in C order, read as bytes *)
}.

(** An argument object: what PyArray_Check and PyFloat_AsDouble see of it.
    An object without [as_double] is one that has no conversion to a float
    (objects whose own conversion raises are not modelled). *)
Record PyObject := mkPyObject {
  as_array : option PyArrayObject;   (* Some: PyArray_Check holds *)
  as_double : option float;          (* None: PyFloat_AsDouble fails *)
  tp_name : string                   (* the name of its type *)
}.

Definition PyArray_Check (o : PyObject) : bool :=
  match as_array o with Some _ => true | None => false end.

(** The objects the entry points build. *)
#[local] Unset Elimination Schemes.
Inductive PyValue :=
| Py_None
| PyBool (b : bool)
| PyFloat (d : float)
| PyLong (z : Z)
| PyTuple (items : list PyValue)
| PyDict (items : list (string * PyValue))
| PyList (items : list PyValue).
#[local] Set Elimination Schemes.

Fixpoint dict_set (d : list (string * PyValue)) (key : string) (v : PyValue)
  : list (string * PyValue) :=
  match d with
  | [] => [(key, v)]
  | (k, v') :: d' =>
      if String.eqb key k then (key, v) :: d' else (k, v') :: dict_set d' key v
  end.

Definition PyDict_SetItemString (d : PyValue) (key : string) (v : PyValue) : PyValue :=
  match d with
  | PyDict items => PyDict (dict_set items key v)
  | _ => d
  end.

Fixpoint chunk (fuel n : nat) (l : list Z) : list (list Z) :=
  match fuel with
  | O => []
  | Datatypes.S fuel' =>
      match l with
      | [] => []
      | _ => firstn n l :: chunk fuel' n (skipn n l)
      end
  end.

(** [pyarray_to_mat]: the copy of a 2-D or 3-D array as a matrix of 1, 3 or 4
    channels.  The copy that makes the array contiguous keeps its elements. *)
Definition pyarray_to_mat (input : option PyArrayObject) : outcome Mat :=
  match input with
  | None => Throw (std_exception "Input array is null")
  | Some a =>
      let ndim := Z.of_nat (List.length (shape a)) in
      if (ndim <? 2) || (ndim >? 3) then
        Throw (std_exception "Array must be 2D or 3D")
      else
        let height := int_wrap (nth 0 (shape a) 0) in
        let width := int_wrap (nth 1 (shape a) 0) in
        let channels := if ndim =? 3 then int_wrap (nth 2 (shape a) 0) else 1 in
        if (channels =? 1) || (channels =? 3) || (channels =? 4) then
          Normal (mkMat height width channels
                    (firstn (Z.to_nat (height * width))
                       (chunk (List.length (elements a)) (Z.to_nat channels) (elements a))))
        else Throw (std_exception "Unsupported number of channels")
  end.

(** [std::to_string] of a size. *)
Definition to_string (n : nat) : string := NilEmpty.string_of_uint (Nat.to_uint n).

(** ** The world and computations *)

Inductive Event :=
| EvSingleMatch (template_id : Z)
| EvMatchTemplate (image templ : Mat) (method : Z)
| EvMinMaxLoc (surface : ScoreMat)
| EvCvtColor (src : Mat) (code : Z)
| EvNoGIL (api : string).

Inductive PyExc := PyExc_ValueError | PyExc_RuntimeError | PyExc_TypeError.

Record World := mkWorld {
  stdout : list string;                 (* lines written by thread_safe_log *)
  trace : list Event;                   (* invocations, oldest first *)
  launched : nat;                       (* std::async launches attempted *)
  PyErr : option (PyExc * string)       (* the pending Python error *)
}.

Definition World0 : World := mkWorld [] [] 0 None.

(** A called function: it sees the world only. *)
Definition Fn (A : Type) : Type := World -> outcome A * World.

(** A function body over the frame [S] of its local variables. *)
Definition M (S A : Type) : Type := S -> World -> outcome A * S * World.

Definition ret {S A} (a : A) : M S A := fun s w => (Normal a, s, w).

Definition bind {S A B} (m : M S A) (k : A -> M S B) : M S B :=
  fun s w =>
    match m s w with
    | (Normal a, s', w') => k a s' w'
    | (Throw e, s', w') => (Throw e, s', w')
    end.

Notation "x <- m ;; k" := (bind m (fun x => k))
  (at level 61, m at next level, right associativity).
Notation "m ;; k" := (bind m (fun _ => k))
  (at level 61, right associativity).

Definition get {S} : M S S := fun s w => (Normal s, s, w).

Definition modify {S} (f : S -> S) : M S unit := fun s w => (Normal tt, f s, w).

(** [try { body } catch (e) { handler e }]. *)
Definition try_catch {S A} (body : M S A) (handler : exn -> M S A) : M S A :=
  fun s w =>
    match body s w with
    | (Normal a, s', w') => (Normal a, s', w')
    | (Throw e, s', w') => handler e s' w'
    end.

(** The body of a function run on its initial frame. *)
Definition run_body {S A} (s0 : S) (body : M S A) : Fn A :=
  fun w => let '(r, _, w') := body s0 w in (r, w').

Definition call {S A} (f : Fn A) : M S A :=
  fun s w => let '(r, w') := f w in
             match r with Normal a => (Normal a, s, w') | Throw e => (Throw e, s, w') end.

Definition lift_outcome {S A} (r : outcome A) : M S A :=
  fun s w => (r, s, w).

Definition emit {S} (ev : Event) : M S unit :=
  fun s w => (Normal tt, s,
              mkWorld (stdout w) (trace w ++ [ev]) (launched w) (PyErr w)).

Fixpoint for_each {S A} (l : list A) (body : A -> M S unit) : M S unit :=
  match l with
  | [] => ret tt
  | a :: l' => body a ;; for_each l' body
  end.

(** [for (i = 0; i < n; ++i) body i]. *)
Definition for_index {S} (n : nat) (body : nat -> M S unit) : M S unit :=
  for_each (seq 0 n) body.

Definition thread_safe_log {S} (message : string) : M S unit :=
  fun s w => (Normal tt, s,
              mkWorld (stdout w ++ [message]) (trace w) (launched w) (PyErr w)).

Definition PyErr_SetString {S} (exc : PyExc) (msg : string) : M S unit :=
  fun s w => (Normal tt, s,
              mkWorld (stdout w) (trace w) (launched w) (Some (exc, msg))).

(** A call of the Python C API by a thread whose frame says, through [gil],
    whether it holds the GIL: without it the call is undefined behaviour. *)
Definition with_gil {S} (gil : S -> bool) (api : string) : M S unit :=
  fun s w => if gil s then (Normal tt, s, w) else emit (EvNoGIL api) s w.

(** The macros that release and take back the GIL; [set_gil] updates the
    frame. *)
Definition Py_BEGIN_ALLOW_THREADS {S} (set_gil : bool -> S -> S) : M S unit :=
  modify (set_gil false).
Definition Py_END_ALLOW_THREADS {S} (set_gil : bool -> S -> S) : M S unit :=
  modify (set_gil true).
Definition Py_BLOCK_THREADS {S} (set_gil : bool -> S -> S) : M S unit :=
  modify (set_gil true).
Definition Py_UNBLOCK_THREADS {S} (set_gil : bool -> S -> S) : M S unit :=
  modify (set_gil false).

Definition value {A} (r : outcome A * World) : outcome A := fst r.
Definition world {A} (r : outcome A * World) : World := snd r.

(** ** The environment: OpenCV primitives and the thread supply *)

Record Env := mkEnv {
  cv_matchTemplate : Mat -> Mat -> Z -> outcome ScoreMat;
  cv_minMaxLoc : ScoreMat -> outcome (float * float * Point * Point);
  cv_cvtColor : Mat -> Z -> outcome Mat;
  (* whether the n-th attempt to start a thread succeeds *)
  async_launch_ok : nat -> bool;
  (* whether the dictionary a batch task asks for after n launch attempts is
     allocated *)
  PyDict_New_ok : nat -> bool
}.

Definition TM_CCOEFF_NORMED : Z := 5.
Definition COLOR_BGR2HSV : Z := 40.

(** A [std::future]: the result its task left, or the exception it raised. *)
Definition future (A : Type) : Type := outcome A.

Section Core.

Variable E : Env.

Definition matchTemplate {S} (image templ : Mat) (method : Z) : M S ScoreMat :=
  emit (EvMatchTemplate image templ method) ;;
  lift_outcome (cv_matchTemplate E image templ method).

Definition minMaxLoc {S} (src : ScoreMat) : M S (float * float * Point * Point) :=
  emit (EvMinMaxLoc src) ;;
  lift_outcome (cv_minMaxLoc E src).

Definition cvtColor {S} (src : Mat) (code : Z) : M S Mat :=
  emit (EvCvtColor src code) ;;
  lift_outcome (cv_cvtColor E src code).

(** [std::async(std::launch::async, f, ...)]: raises std::system_error when no
    thread can be started, else runs the task. *)
Definition std_async {S A} (task : Fn A) : M S (future A) :=
  fun s w =>
    let w1 := mkWorld (stdout w) (trace w) (Datatypes.S (launched w)) (PyErr w) in
    if async_launch_ok E (launched w) then
      let '(r, w') := task w1 in (Normal r, s, w')
    else (Throw (std_exception "Resource temporarily unavailable"), s, w1).

Definition future_get {S A} (f : future A) : M S A := lift_outcome f.

(** ** Single matcher *)

(** The result of one match ([processing_time_ms] is not modelled). *)
Record MatchResult := mkMatchResult {
  max_val : float;
  max_loc : Point;
  confidence : float;
  found : bool;
  template_id : Z
}.

(** The four assignments at the end of the try block; [template_id] stays. *)
Definition record_match (max_val : float) (max_loc : Point) (threshold : float)
    (result : MatchResult) : MatchResult :=
  mkMatchResult max_val max_loc max_val (double_ge max_val threshold)
                (template_id result).

Definition parallel_template_match (image template_img : Mat) (method : Z)
    (threshold : float) (template_id : Z) : Fn MatchResult :=
  run_body (mkMatchResult 0%float origin 0%float false template_id)
    (emit (EvSingleMatch template_id) ;;
     try_catch
       (if Mat_empty image || Mat_empty template_img then
          thread_safe_log "Empty image or template in parallel_template_match"
        else if (rows template_img >? rows image) || (cols template_img >? cols image) then
          thread_safe_log "Template larger than image"
        else
          match_result <- matchTemplate image template_img method ;;
          mm <- minMaxLoc match_result ;;
          let '(min_val, max_val, min_loc, max_loc) := mm in
          modify (record_match max_val max_loc threshold))
       (fun e =>
          match e with
          | cv_Exception msg =>
              thread_safe_log ("OpenCV error in template matching: " ++ msg)
          | std_exception msg =>
              thread_safe_log ("Error in template matching: " ++ msg)
          end) ;;
     get).

(** ** Multi-template matcher *)

Record mtm_frame := mk_mtm_frame {
  mtm_futures : list (future MatchResult);
  mtm_results : list MatchResult
}.

Definition Mat0 : Mat := mkMat 0 0 1 [].

Definition error_result : MatchResult := mkMatchResult 0%float origin 0%float false (-1).

(** Body of the launch loop for index [i]. *)
Definition launch_match (image : Mat) (method : Z) (i : nat) (template_img : Mat)
    (threshold : float) : M mtm_frame unit :=
  f <- std_async (parallel_template_match image template_img method threshold
                    (int_wrap (Z.of_nat i))) ;;
  modify (fun fr => mk_mtm_frame (mtm_futures fr ++ [f]) (mtm_results fr)).

(** Body of the collection loop. *)
Definition collect_match (f : future MatchResult) : M mtm_frame unit :=
  try_catch
    (r <- future_get f ;;
     modify (fun fr => mk_mtm_frame (mtm_futures fr) (mtm_results fr ++ [r])))
    (fun e =>
       thread_safe_log ("Error getting template match result: " ++ what e) ;;
       modify (fun fr => mk_mtm_frame (mtm_futures fr)
                                      (mtm_results fr ++ [error_result]))).

Definition multi_template_match (image : Mat) (templates : list Mat)
    (thresholds : list float) (method : Z) : Fn (list MatchResult) :=
  run_body (mk_mtm_frame [] [])
    (if negb (List.length templates =? List.length thresholds)%nat then
       thread_safe_log "Template and threshold vectors size mismatch" ;;
       fr <- get ;; ret (mtm_results fr)
     else
       (* Launch parallel template matching tasks *)
       for_index (List.length templates) (fun i =>
         launch_match image method i (nth i templates Mat0) (nth i thresholds 0%float)) ;;
       (* Collect results *)
       fr <- get ;;
       for_each (mtm_futures fr) collect_match ;;
       fr <- get ;; ret (mtm_results fr)).

(** ** Health analyzer *)

(** The result of the health analysis ([processing_time_ms] is not modelled). *)
Record HealthResult := mkHealthResult {
  health_percentage : float;
  is_empty : bool;
  is_critical : bool;
  health_location : Point;
  health_bar_found : bool
}.

Definition set_health_percentage (v : float) (r : HealthResult) : HealthResult :=
  mkHealthResult v (is_empty r) (is_critical r) (health_location r) (health_bar_found r).
Definition set_is_empty (v : bool) (r : HealthResult) : HealthResult :=
  mkHealthResult (health_percentage r) v (is_critical r) (health_location r) (health_bar_found r).
Definition set_is_critical (v : bool) (r : HealthResult) : HealthResult :=
  mkHealthResult (health_percentage r) (is_empty r) v (health_location r) (health_bar_found r).
Definition set_health_location (v : Point) (r : HealthResult) : HealthResult :=
  mkHealthResult (health_percentage r) (is_empty r) (is_critical r) v (health_bar_found r).
Definition set_health_bar_found (v : bool) (r : HealthResult) : HealthResult :=
  mkHealthResult (health_percentage r) (is_empty r) (is_critical r) (health_location r) v.

Definition lower_red1 : list Z := Scalar 0 120 70.
Definition upper_red1 : list Z := Scalar 10 255 255.
Definition lower_red2 : list Z := Scalar 170 120 70.
Definition upper_red2 : list Z := Scalar 180 255 255.

(** The region of interest at the match location, clipped to the image.  The
    two differences have both operands in [0, INT_MAX]. *)
Definition health_roi (screenshot health_bar_template : Mat) (health_loc : Point) : Rect :=
  let roi := mkRect (Point_x health_loc) (Point_y health_loc)
                    (cols health_bar_template) (rows health_bar_template) in
  let x := Z.max 0 (Rect_x roi) in
  let y := Z.max 0 (Rect_y roi) in
  let width := Z.min (Rect_width roi) (cols screenshot - x) in
  let height := Z.min (Rect_height roi) (rows screenshot - y) in
  mkRect x y width height.

(** The colour analysis of the region (the block under
    "Analyze health percentage using color analysis"). *)
Definition analyze_health_color (health_region : Mat) : M HealthResult unit :=
  hsv <- cvtColor health_region COLOR_BGR2HSV ;;
  let mask1 := inRange hsv lower_red1 upper_red1 in
  let mask2 := inRange hsv lower_red2 upper_red2 in
  red_mask <- lift_outcome (Mat_add mask1 mask2) ;;
  red_pixels <- lift_outcome (countNonZero red_mask) ;;
  let total_pixels := int_mul (rows health_region) (cols health_region) in
  if total_pixels >? 0 then
    modify (set_health_percentage
              (PrimFloat.div (double_of_int red_pixels) (double_of_int total_pixels)))
  else
    modify (set_health_percentage 0%float).

Definition detect_health_parallel (screenshot health_bar_template
    empty_health_template : Mat) (health_threshold : float) : Fn HealthResult :=
  run_body (mkHealthResult 0%float false false origin false)
    (try_catch
       (if Mat_empty screenshot || Mat_empty health_bar_template
           || Mat_empty empty_health_template then
          thread_safe_log "Empty input in health detection"
        else
          (* Parallel health bar detection *)
          health_bar_future <-
            std_async (parallel_template_match screenshot health_bar_template
                         TM_CCOEFF_NORMED 0.7%float 0) ;;
          empty_health_future <-
            std_async (parallel_template_match screenshot empty_health_template
                         TM_CCOEFF_NORMED 0.8%float 1) ;;
          (* Get results *)
          health_bar_result <- future_get health_bar_future ;;
          empty_health_result <- future_get empty_health_future ;;
          modify (set_health_bar_found (found health_bar_result)) ;;
          modify (set_health_location (max_loc health_bar_result)) ;;
          (* Process health bar if found *)
          (if found health_bar_result then
             let roi := health_roi screenshot health_bar_template
                                   (max_loc health_bar_result) in
             if (Rect_width roi >? 0) && (Rect_height roi >? 0) then
               health_region <- lift_outcome (Mat_roi screenshot roi) ;;
               analyze_health_color health_region
             else ret tt
           else ret tt) ;;
          (* Check for empty health *)
          result <- get ;;
          modify (set_is_empty (found empty_health_result
                                || double_lt (health_percentage result) 0.05%float)) ;;
          modify (set_is_critical (double_lt (health_percentage result) health_threshold)))
       (fun e =>
          match e with
          | cv_Exception msg =>
              thread_safe_log ("OpenCV error in health detection: " ++ msg)
          | std_exception msg =>
              thread_safe_log ("Error in health detection: " ++ msg)
          end) ;;
     get).

(** ** Python entry point of the multi-template matcher *)

(** The error PyFloat_AsDouble sets for an object that is no number (the
    type name is cut after 50 characters). *)
Definition float_error (o : PyObject) : PyExc * string :=
  (PyExc_TypeError, ("must be real number, not " ++ substring 0 50 (tp_name o))%string).

Definition PyFloat_AsDouble {S} (o : PyObject) : M S float :=
  match as_double o with
  | Some d => ret d
  | None =>
      PyErr_SetString (fst (float_error o)) (snd (float_error o)) ;; ret (-1)%float
  end.

Definition PyObject0 : PyObject := mkPyObject None None "object".

Record cmtm_frame := mk_cmtm_frame {
  cmtm_templates : list Mat;
  cmtm_thresholds : list float;
  cmtm_results : list MatchResult;
  cmtm_gil : bool                    (* the calling thread holds the GIL *)
}.

Definition cmtm_set_gil (b : bool) (fr : cmtm_frame) : cmtm_frame :=
  mk_cmtm_frame (cmtm_templates fr) (cmtm_thresholds fr) (cmtm_results fr) b.

Definition match_dict (r : MatchResult) : PyValue :=
  let d := PyDict [] in
  let d := PyDict_SetItemString d "max_val" (PyFloat (max_val r)) in
  let d := PyDict_SetItemString d "confidence" (PyFloat (confidence r)) in
  let d := PyDict_SetItemString d "found" (PyBool (found r)) in
  let d := PyDict_SetItemString d "template_id" (PyLong (template_id r)) in
  let location := PyTuple [PyLong (Point_x (max_loc r)); PyLong (Point_y (max_loc r))] in
  PyDict_SetItemString d "location" location.

(** Body of the loop that converts the Python lists to C++ vectors. *)
Definition translate_item (template_item threshold_item : PyObject)
  : M cmtm_frame unit :=
  match as_array template_item with
  | Some arr =>
      template_mat <- lift_outcome (pyarray_to_mat (Some arr)) ;;
      modify (fun fr => mk_cmtm_frame (cmtm_templates fr ++ [template_mat])
                          (cmtm_thresholds fr) (cmtm_results fr) (cmtm_gil fr)) ;;
      d <- PyFloat_AsDouble threshold_item ;;
      modify (fun fr => mk_cmtm_frame (cmtm_templates fr)
                          (cmtm_thresholds fr ++ [d]) (cmtm_results fr) (cmtm_gil fr))
  | None => ret tt
  end.

(** The result is [None] for the C [NULL]. *)
Definition cpp_multi_template_match (image_array : PyArrayObject)
    (template_list threshold_list : list PyObject) (method : Z) : Fn (option PyValue) :=
  run_body (mk_cmtm_frame [] [] [] true)
    (completed <-
       try_catch
         (image <- lift_outcome (pyarray_to_mat (Some image_array)) ;;
          let template_count := List.length template_list in
          let threshold_count := List.length threshold_list in
          if negb (template_count =? threshold_count)%nat then
            with_gil cmtm_gil "PyErr_SetString" ;;
            PyErr_SetString PyExc_ValueError
              "Template and threshold lists must have the same size" ;;
            ret false
          else
            (* Convert Python lists to C++ vectors *)
            for_index template_count (fun i =>
              translate_item (nth i template_list PyObject0)
                             (nth i threshold_list PyObject0)) ;;
            fr <- get ;;
            match cmtm_templates fr with
            | [] =>
                with_gil cmtm_gil "PyErr_SetString" ;;
                PyErr_SetString PyExc_ValueError "No valid templates provided" ;;
                ret false
            | _ :: _ =>
                (* Release GIL for parallel processing *)
                Py_BEGIN_ALLOW_THREADS cmtm_set_gil ;;
                (* Perform parallel template matching *)
                results <- call (multi_template_match image (cmtm_templates fr)
                                   (cmtm_thresholds fr) method) ;;
                modify (fun fr => mk_cmtm_frame (cmtm_templates fr)
                                    (cmtm_thresholds fr) results (cmtm_gil fr)) ;;
                thread_safe_log ("Multi-template matching completed for "
                                 ++ to_string (List.length (cmtm_templates fr))
                                 ++ " templates") ;;
                Py_END_ALLOW_THREADS cmtm_set_gil ;;
                ret true
            end)
         (fun e =>
            let error_msg := ("Error in multi-template matching: " ++ what e)%string in
            thread_safe_log error_msg ;;
            with_gil cmtm_gil "PyErr_SetString" ;;
            PyErr_SetString PyExc_RuntimeError error_msg ;;
            ret false) ;;
     if completed then
       (* Convert results to Python list *)
       fr <- get ;;
       ret (Some (PyList (map match_dict (cmtm_results fr))))
     else ret None).

(** ** Batch screenshot processing *)

Definition summary_dict (health_result respawn_result : MatchResult) : PyValue :=
  let d := PyDict [] in
  let d := PyDict_SetItemString d "health_found" (PyBool (found health_result)) in
  let d := PyDict_SetItemString d "health_confidence" (PyFloat (confidence health_result)) in
  let d := PyDict_SetItemString d "respawn_found" (PyBool (found respawn_result)) in
  PyDict_SetItemString d "respawn_confidence" (PyFloat (confidence respawn_result)).

(** [PyDict_New] in a batch task: the environment tells whether the
    dictionary is allocated. *)
Definition PyDict_New {S} : M S bool :=
  fun s w => (Normal (PyDict_New_ok E (launched w)), s, w).

(** The task launched for one screenshot; [None] is the null pointer.  The
    task runs on a thread of its own, which never takes the GIL: each of its
    C API calls is recorded as made without it. *)
Definition batch_item_task (screenshot health_tmpl respawn_tmpl : Mat)
  : Fn (option PyValue) :=
  run_body tt
    (try_catch
       ((* Perform both health and respawn detection in parallel *)
        health_future <-
          std_async (parallel_template_match screenshot health_tmpl
                       TM_CCOEFF_NORMED 0.7%float 0) ;;
        respawn_future <-
          std_async (parallel_template_match screenshot respawn_tmpl
                       TM_CCOEFF_NORMED 0.8%float 1) ;;
        health_result <- future_get health_future ;;
        respawn_result <- future_get respawn_future ;;
        (* Create result dictionary *)
        emit (EvNoGIL "PyDict_New") ;;
        allocated <- PyDict_New ;;
        if allocated then
          emit (EvNoGIL "PyDict_SetItemString") ;;
          emit (EvNoGIL "PyDict_SetItemString") ;;
          emit (EvNoGIL "PyDict_SetItemString") ;;
          emit (EvNoGIL "PyDict_SetItemString") ;;
          ret (Some (summary_dict health_result respawn_result))
        else ret None)
       (fun e =>
          thread_safe_log ("Error in batch processing item: " ++ what e) ;;
          ret (Some Py_None))).

Record batch_frame := mk_batch_frame {
  batch_results : list PyValue;
  batch_futures : list (future (option PyValue));
  batch_gil : bool                   (* the calling thread holds the GIL *)
}.

Definition batch_set_gil (b : bool) (fr : batch_frame) : batch_frame :=
  mk_batch_frame (batch_results fr) (batch_futures fr) b.

(** Body of the loop that converts the screenshots and launches their tasks. *)
Definition launch_item (health_tmpl respawn_tmpl : Mat) (screenshot_item : PyObject)
  : M batch_frame unit :=
  Py_BLOCK_THREADS batch_set_gil ;;
  match as_array screenshot_item with
  | Some arr =>
      screenshot <- lift_outcome (pyarray_to_mat (Some arr)) ;;
      f <- std_async (batch_item_task screenshot health_tmpl respawn_tmpl) ;;
      modify (fun fr => mk_batch_frame (batch_results fr) (batch_futures fr ++ [f])
                                       (batch_gil fr))
  | None => ret tt
  end ;;
  Py_UNBLOCK_THREADS batch_set_gil.

(** Body of the collection loop. *)
Definition collect_item (f : future (option PyValue)) : M batch_frame unit :=
  try_catch
    (result <- future_get f ;;
     match result with
     | Some v =>
         Py_BLOCK_THREADS batch_set_gil ;;
         with_gil batch_gil "PyList_Append" ;;
         modify (fun fr => mk_batch_frame (batch_results fr ++ [v]) (batch_futures fr)
                                          (batch_gil fr)) ;;
         Py_UNBLOCK_THREADS batch_set_gil
     | None => ret tt
     end)
    (fun e => thread_safe_log ("Error getting batch result: " ++ what e)).

Definition cpp_batch_process_screenshots (screenshot_list : list PyObject)
    (health_template respawn_template : PyArrayObject) (health_threshold : float)
  : Fn (option PyValue) :=
  run_body (mk_batch_frame [] [] true)
    (completed <-
       try_catch
         (health_tmpl <- lift_outcome (pyarray_to_mat (Some health_template)) ;;
          respawn_tmpl <- lift_outcome (pyarray_to_mat (Some respawn_template)) ;;
          let screenshot_count := List.length screenshot_list in
          (* Release GIL for batch processing *)
          Py_BEGIN_ALLOW_THREADS batch_set_gil ;;
          (* Convert screenshots and launch parallel processing *)
          for_index screenshot_count (fun i =>
            launch_item health_tmpl respawn_tmpl (nth i screenshot_list PyObject0)) ;;
          (* Collect results *)
          fr <- get ;;
          for_each (batch_futures fr) collect_item ;;
          thread_safe_log ("Batch processing completed for "
                           ++ to_string (List.length (batch_futures fr))
                           ++ " screenshots") ;;
          Py_END_ALLOW_THREADS batch_set_gil ;;
          ret true)
         (fun e =>
            let error_msg := ("Error in batch processing: " ++ what e)%string in
            thread_safe_log error_msg ;;
            with_gil batch_gil "PyErr_SetString" ;;
            PyErr_SetString PyExc_RuntimeError error_msg ;;
            ret false) ;;
     if completed then
       fr <- get ;; ret (Some (PyList (batch_results fr)))
     else ret None).

(** ** Paths through the functions, as predicates on the inputs *)

(** The single matcher reached and completed the correlation: the input is
    not degenerate and neither primitive raised. *)
Definition correlated (image template_img : Mat) (method : Z) : bool :=
  negb (Mat_empty image || Mat_empty template_img)
  && negb ((rows template_img >? rows image) || (cols template_img >? cols image))
  && match cv_matchTemplate E image template_img method with
     | Normal surface =>
         match cv_minMaxLoc E surface with Normal _ => true | Throw _ => false end
     | Throw _ => false
     end.

(** The record the single matcher returns; it does not depend on the world
    (see [parallel_template_match_returns]). *)
Definition matchOne (image template_img : Mat) (method : Z) (threshold : float)
    (template_id : Z) : MatchResult :=
  match value (parallel_template_match image template_img method threshold
                 template_id World0) with
  | Normal r => r
  | Throw _ => error_result
  end.

(** Both matches of the health analyzer were launched and collected: no
    input is empty and the two launches found a thread. *)
Definition matches_collected (screenshot health_bar_template empty_health_template : Mat)
    (w : World) : bool :=
  negb (Mat_empty screenshot || Mat_empty health_bar_template
        || Mat_empty empty_health_template)
  && async_launch_ok E (launched w)
  && async_launch_ok E (Datatypes.S (launched w)).

(** The clipped region the health analyzer hands to the colour analysis, if
    it gets there. *)
Definition analysed_region (screenshot health_bar_template empty_health_template : Mat)
    (w : World) : option Mat :=
  if matches_collected screenshot health_bar_template empty_health_template w then
    let health_bar_result :=
      matchOne screenshot health_bar_template TM_CCOEFF_NORMED 0.7%float 0 in
    if found health_bar_result then
      let roi := health_roi screenshot health_bar_template (max_loc health_bar_result) in
      if (Rect_width roi >? 0) && (Rect_height roi >? 0) then
        match Mat_roi screenshot roi with
        | Normal health_region => Some health_region
        | Throw _ => None
        end
      else None
    else None
  else None.

(** The health analyzer ran to the end of its try block. *)
Definition analysis_completed (screenshot health_bar_template empty_health_template : Mat)
    (w : World) : bool :=
  matches_collected screenshot health_bar_template empty_health_template w
  && match analysed_region screenshot health_bar_template empty_health_template w with
     | Some health_region =>
         match cv_cvtColor E health_region COLOR_BGR2HSV with
         | Normal _ => true
         | Throw _ => false
         end
     | None => true
     end.

End Core.

(** A pixel of the HSV image that either red range selects. *)
Definition red_pixel (px : list Z) : bool :=
  pixel_in_range px lower_red1 upper_red1 || pixel_in_range px lower_red2 upper_red2.

Definition count_red (hsv : Mat) : Z :=
  Z.of_nat (List.length (filter red_pixel (data hsv))).

(** The fraction the colour analysis stores for a region whose HSV image is
    [hsv]. *)
Definition red_fraction (health_region hsv : Mat) : float :=
  let total_pixels := int_mul (rows health_region) (cols health_region) in
  if total_pixels >? 0 then
    PrimFloat.div (double_of_int (count_red hsv)) (double_of_int total_pixels)
  else 0%float.

(** ** The accepted entries of the Python lists *)

(** The array entries of a list, in order. *)
Definition arrays_of (l : list PyObject) : list PyArrayObject :=
  flat_map (fun o => match as_array o with Some arr => [arr] | None => [] end) l.

(** The (template, threshold) pairs the input translation keeps, in order. *)
Definition keep_pair (p : PyObject * PyObject) : list (PyArrayObject * PyObject) :=
  match as_array (fst p) with
  | Some arr => [(arr, snd p)]
  | None => []
  end.

Definition accepted_pairs (template_list threshold_list : list PyObject)
  : list (PyArrayObject * PyObject) :=
  flat_map keep_pair (combine template_list threshold_list).

(** The double the translation stores for a threshold object. *)
Definition threshold_of (o : PyObject) : float :=
  match as_double o with Some d => d | None => (-1)%float end.

(** One single-matcher result per (template, threshold) pair, numbered from 0. *)
Definition match_each (E : Env) (image : Mat) (templates : list Mat)
    (thresholds : list float) (method : Z) : list MatchResult :=
  map (fun p => matchOne E image (fst (snd p)) method (snd (snd p))
                 (int_wrap (Z.of_nat (fst p))))
      (combine (seq 0 (List.length templates)) (combine templates thresholds)).

(** The events that make a run undefined. *)
Definition is_undefined (ev : Event) : bool :=
  match ev with EvNoGIL _ => true | _ => false end.

(** A run that stays within defined behaviour: no C API call without the
    GIL. *)
Definition defined_run (w : World) : bool :=
  forallb (fun ev => negb (is_undefined ev)) (trace w).

(** An entry of the list the batch entry point returns for the array [arr] in
    a defined run: the placeholder None, left by a task that was launched (as
    launch number [n]) and one of whose two matcher tasks was not. *)
Definition entry_of (E : Env) (arr : PyArrayObject) (v : PyValue) : Prop :=
  exists screenshot n,
    pyarray_to_mat (Some arr) = Normal screenshot
    /\ v = Py_None
    /\ async_launch_ok E n = true
    /\ async_launch_ok E (Datatypes.S n)
       && async_launch_ok E (Datatypes.S (Datatypes.S n)) = false.

(** The Python error left pending by the translation of the accepted
    thresholds: each threshold that is no number sets its own. *)
Definition pending_after (accepted : list (PyArrayObject * PyObject))
    (pending : option (PyExc * string)) : option (PyExc * string) :=
  fold_left (fun err p => match as_double (snd p) with
                          | Some _ => err
                          | None => Some (float_error (snd p))
                          end)
            accepted pending.

(** The record the health analyzer returns, path by path (see
    [detect_health_parallel_returns]). *)
Definition analyzeHealth (E : Env) (screenshot health_bar_template
    empty_health_template : Mat) (health_threshold : float) (w : World) : HealthResult :=
  if matches_collected E screenshot health_bar_template empty_health_template w then
    let health_bar_result :=
      matchOne E screenshot health_bar_template TM_CCOEFF_NORMED 0.7%float 0 in
    let empty_health_result :=
      matchOne E screenshot empty_health_template TM_CCOEFF_NORMED 0.8%float 1 in
    let finish fraction :=
      mkHealthResult fraction
        (found empty_health_result || double_lt fraction 0.05%float)
        (double_lt fraction health_threshold)
        (max_loc health_bar_result) (found health_bar_result) in
    match analysed_region E screenshot health_bar_template empty_health_template w with
    | Some health_region =>
        match cv_cvtColor E health_region COLOR_BGR2HSV with
        | Normal hsv => finish (red_fraction health_region hsv)
        | Throw _ =>
            mkHealthResult 0%float false false
              (max_loc health_bar_result) (found health_bar_result)
        end
    | None => finish 0%float
    end
  else mkHealthResult 0%float false false origin false.

(** ** Sample environments *)

(** An environment whose correlation always peaks with score [v] at [p], whose
    colour conversion returns its argument, and where [launch_ok] tells which
    launches succeed. *)
Definition Env_peak (v : float) (p : Point) (launch_ok : nat -> bool) : Env :=
  mkEnv (fun _ _ _ => Normal (mkScoreMat 1 1 [v]))
        (fun _ => Normal (v, v, p, p))
        (fun m _ => Normal m)
        launch_ok
        (fun _ => true).

Definition always : nat -> bool := fun _ => true.
Definition first_only : nat -> bool := fun n => (n <? 1)%nat.

(** A 2 x 2 one-channel image and a 1 x 1 template. *)
Definition image22 : Mat := mkMat 2 2 1 [[10]; [20]; [30]; [40]].
Definition templ11 : Mat := mkMat 1 1 1 [[10]].

(** Two 2 x 2 three-channel screenshots with the same first row, and a
    1 x 2 bar template. *)
Definition shot_a : Mat :=
  mkMat 2 2 3 [[5; 200; 100]; [90; 10; 10]; [175; 130; 80]; [0; 0; 0]].
Definition shot_b : Mat :=
  mkMat 2 2 3 [[5; 200; 100]; [90; 10; 10]; [60; 60; 60]; [7; 7; 7]].
Definition bar12 : Mat := mkMat 1 2 3 [[5; 200; 100]; [90; 10; 10]].
Definition pix111 : Mat := mkMat 1 1 3 [[1; 1; 1]].

(** Sample arguments: the array of [image22], the array of [templ11], an
    object that is no array, and a one-dimensional array. *)
Definition array22 : PyArrayObject := mkPyArray [2; 2] [10; 20; 30; 40].
Definition array11 : PyArrayObject := mkPyArray [1; 1] [10].
Definition array_1d : PyArrayObject := mkPyArray [4] [10; 20; 30; 40].
Definition obj_array (a : PyArrayObject) : PyObject :=
  mkPyObject (Some a) None "numpy.ndarray".
Definition obj_float (d : float) : PyObject := mkPyObject None (Some d) "float".
Definition obj_none : PyObject := mkPyObject None None "NoneType".

(** ** The remaining entry points *)

Section EntryPoints.

Variable E : Env.

(** The text of the two completion lines: they format a measured time and a
    double with [std::to_string], which the model takes as given. *)
Variable health_line : HealthResult -> string.
Variable benchmark_line : Z -> float -> string.

(** The dictionary built from a health result ([processing_time_ms] is not
    modelled). *)
Definition health_dict (result : HealthResult) : PyValue :=
  let d := PyDict [] in
  let d := PyDict_SetItemString d "health_percentage" (PyFloat (health_percentage result)) in
  let d := PyDict_SetItemString d "is_empty" (PyBool (is_empty result)) in
  let d := PyDict_SetItemString d "is_critical" (PyBool (is_critical result)) in
  let d := PyDict_SetItemString d "health_bar_found" (PyBool (health_bar_found result)) in
  let location_tuple := PyTuple [PyLong (Point_x (health_location result));
                                 PyLong (Point_y (health_location result))] in
  PyDict_SetItemString d "health_location" location_tuple.

(** Python wrapper for parallel health detection. *)
Definition cpp_detect_health_parallel (screenshot_array health_template_array
    empty_template_array : PyArrayObject) (health_threshold : float)
  : Fn (option PyValue) :=
  run_body tt
    (result <-
       try_catch
         (screenshot <- lift_outcome (pyarray_to_mat (Some screenshot_array)) ;;
          health_template <- lift_outcome (pyarray_to_mat (Some health_template_array)) ;;
          empty_template <- lift_outcome (pyarray_to_mat (Some empty_template_array)) ;;
          result <- call (detect_health_parallel E screenshot health_template
                            empty_template health_threshold) ;;
          thread_safe_log (health_line result) ;;
          ret result)
         (fun e =>
            thread_safe_log ("Error in health detection: " ++ what e) ;;
            ret (mkHealthResult 0%float false false origin false)) ;;
     (* Return result as Python dictionary *)
     ret (Some (health_dict result))).

(** One iteration of the benchmark loop. *)
Definition benchmark_iteration (image template_img : Mat) : M float unit :=
  result <- matchTemplate E image template_img TM_CCOEFF_NORMED ;;
  mm <- minMaxLoc E result ;;
  ret tt.

(** Benchmark function; the frame is [total_time].  [elapsed_us] is the
    number of microseconds the clock measures around the loop. *)
Definition cpp_benchmark_template_matching (image_array template_array : PyArrayObject)
    (iterations : Z) (elapsed_us : Z) : Fn (option PyValue) :=
  run_body 0%float
    (try_catch
       (image <- lift_outcome (pyarray_to_mat (Some image_array)) ;;
        template_img <- lift_outcome (pyarray_to_mat (Some template_array)) ;;
        for_index (Z.to_nat iterations) (fun _ => benchmark_iteration image template_img) ;;
        modify (fun _ => PrimFloat.div (double_of_int elapsed_us) 1000%float) ;;
        total_time <- get ;;
        thread_safe_log (benchmark_line iterations total_time))
       (fun e => thread_safe_log ("Error in benchmark: " ++ what e)) ;;
     total_time <- get ;;
     let result_dict := PyDict [] in
     let result_dict := PyDict_SetItemString result_dict "total_time_ms" (PyFloat total_time) in
     let result_dict := PyDict_SetItemString result_dict "iterations" (PyLong iterations) in
     let result_dict := PyDict_SetItemString result_dict "avg_time_ms"
                          (PyFloat (PrimFloat.div total_time (double_of_int iterations))) in
     ret (Some result_dict)).

End EntryPoints.

(** A matrix whose data has one pixel per position and one value per channel. *)
Definition Mat_wf (m : Mat) : Prop :=
  0 <= rows m /\ 0 <= cols m /\ 0 < channels m
  /\ List.length (data m) = Z.to_nat (rows m * cols m)
  /\ Forall (fun px => List.length px = Z.to_nat (channels m)) (data m).

(** The events of [n] benchmark iterations on a surface. *)
Fixpoint benchmark_events (n : nat) (image template_img : Mat) (surface : ScoreMat)
  : list Event :=
  match n with
  | O => []
  | Datatypes.S n' =>
      EvMatchTemplate image template_img TM_CCOEFF_NORMED :: EvMinMaxLoc surface
      :: benchmark_events n' image template_img surface
  end.

(** The objects PyFloat_AsDouble converts. *)
Definition numeric (o : PyObject) : bool :=
  match as_double o with Some _ => true | None => false end.

(** The events that are colour conversions. *)
Definition is_conversion (ev : Event) : bool :=
  match ev with EvCvtColor _ _ => true | _ => false end.

(** An environment whose correlation raises. *)
Definition Env_no_match : Env :=
  mkEnv (fun _ _ _ => Throw (cv_Exception "depth mismatch"))
        (fun _ => Normal (0%float, 0%float, origin, origin))
        (fun m _ => Normal m)
        always
        (fun _ => true).

(** An environment whose colour conversion raises. *)
Definition Env_no_hsv (v : float) (p : Point) : Env :=
  mkEnv (fun _ _ _ => Normal (mkScoreMat 1 1 [v]))
        (fun _ => Normal (v, v, p, p))
        (fun _ _ => Throw (cv_Exception "Invalid number of channels"))
        always
        (fun _ => true).

(** The array of [shot_a], a 1 x 2 x 3 array and a 2 x 2 x 2 array. *)
Definition array_shot : PyArrayObject :=
  mkPyArray [2; 2; 3] [5; 200; 100; 90; 10; 10; 175; 130; 80; 0; 0; 0].
Definition array_bar : PyArrayObject :=
  mkPyArray [1; 2; 3] [5; 200; 100; 90; 10; 10].
Definition array_2ch : PyArrayObject :=
  mkPyArray [2; 2; 2] [1; 2; 3; 4; 5; 6; 7; 8].

(** * Properties *)

Arguments std_async : simpl never.
Arguments parallel_template_match : simpl never.
Arguments analyze_health_color : simpl never.
Arguments health_roi : simpl never.
Arguments Mat_roi : simpl never.
Arguments launch_match : simpl never.
Arguments collect_match : simpl never.
Arguments translate_item : simpl never.
Arguments launch_item : simpl never.
Arguments collect_item : simpl never.
Arguments multi_template_match : simpl never.
Arguments batch_item_task : simpl never.
Arguments pyarray_to_mat : simpl never.
Arguments to_string : simpl never.
Arguments detect_health_parallel : simpl never.
Arguments benchmark_iteration : simpl never.

Ltac run :=
  unfold Py_BEGIN_ALLOW_THREADS, Py_END_ALLOW_THREADS, Py_BLOCK_THREADS,
    Py_UNBLOCK_THREADS, with_gil, PyDict_New;
  unfold run_body, bind, try_catch, ret, get, modify, emit, thread_safe_log,
    lift_outcome, matchTemplate, minMaxLoc, cvtColor, call, future_get,
    PyErr_SetString; cbn.

Section SingleMatcher.

Variable E : Env.

(** The single matcher always returns, and what it returns is [matchOne]; it
    leaves the launch count and the pending Python error alone. *)
Lemma parallel_template_match_returns image templ method threshold id w :
  exists w',
    parallel_template_match E image templ method threshold id w
      = (Normal (matchOne E image templ method threshold id), w')
    /\ launched w' = launched w /\ PyErr w' = PyErr w.
Proof.
  unfold matchOne, value, parallel_template_match. run.
  destruct (Mat_empty image || Mat_empty templ); cbn.
  { eexists; split; [reflexivity | split; reflexivity]. }
  destruct ((rows templ >? rows image) || (cols templ >? cols image)); cbn.
  { eexists; split; [reflexivity | split; reflexivity]. }
  destruct (cv_matchTemplate E image templ method) as [surface | [msg | msg]]; cbn;
    try (eexists; split; [reflexivity | split; reflexivity]).
  destruct (cv_minMaxLoc E surface) as [[[[mn mx] lmn] lmx] | [msg | msg]]; cbn;
    eexists; split; try reflexivity; split; reflexivity.
Qed.

(** What [matchOne] is on each path. *)
Lemma matchOne_correlated image templ method threshold id :
  correlated E image templ method = true ->
  exists surface min_val max_val min_loc max_loc,
    cv_matchTemplate E image templ method = Normal surface
    /\ cv_minMaxLoc E surface = Normal (min_val, max_val, min_loc, max_loc)
    /\ matchOne E image templ method threshold id
       = mkMatchResult max_val max_loc max_val (double_ge max_val threshold) id.
Proof.
  unfold correlated, matchOne, value, parallel_template_match. run.
  destruct (Mat_empty image || Mat_empty templ); cbn; [discriminate |].
  destruct ((rows templ >? rows image) || (cols templ >? cols image)); cbn;
    [discriminate |].
  destruct (cv_matchTemplate E image templ method) as [surface | e] eqn:Hm;
    [| discriminate].
  destruct (cv_minMaxLoc E surface) as [[[[mn mx] lmn] lmx] | e] eqn:Hl;
    [| discriminate].
  intros _. exists surface, mn, mx, lmn, lmx. cbn. repeat split; assumption.
Qed.

Lemma matchOne_not_correlated image templ method threshold id :
  correlated E image templ method = false ->
  matchOne E image templ method threshold id
  = mkMatchResult 0%float origin 0%float false id.
Proof.
  unfold correlated, matchOne, value, parallel_template_match. run.
  destruct (Mat_empty image || Mat_empty templ); cbn; [reflexivity |].
  destruct ((rows templ >? rows image) || (cols templ >? cols image)); cbn;
    [reflexivity |].
  destruct (cv_matchTemplate E image templ method) as [surface | [msg | msg]]; cbn;
    try reflexivity.
  destruct (cv_minMaxLoc E surface) as [[[[mn mx] lmn] lmx] | [msg | msg]]; cbn;
    try reflexivity; discriminate.
Qed.

(** A positive threshold is not reached by a zero score. *)
Lemma zero_below_positive (threshold : float) :
  PrimFloat.ltb 0 threshold = true -> double_ge 0 threshold = false.
Proof.
  unfold double_ge. rewrite ltb_spec, leb_spec.
  change (Prim2SF 0) with (S754_zero false).
  destruct (Prim2SF threshold) as [s | s | | s m e]; try destruct s; cbn; congruence.
Qed.

(** *** C1, C3: the single matcher *)

(** C3.  On an empty image, an empty template or a template exceeding the
    image in either axis, the single matcher returns found = false, score 0,
    confidence 0 and location (0,0), and the only event it adds to the trace is
    its own invocation: the correlation primitive is not invoked. *)
Theorem parallel_template_match_degenerate image templ method threshold id w :
  Mat_empty image = true \/ Mat_empty templ = true
  \/ rows templ > rows image \/ cols templ > cols image ->
  exists w',
    parallel_template_match E image templ method threshold id w
      = (Normal (mkMatchResult 0%float origin 0%float false id), w')
    /\ trace w' = trace w ++ [EvSingleMatch id].
Proof.
  intros H. unfold parallel_template_match. run.
  destruct (Mat_empty image || Mat_empty templ) eqn:Hempty; cbn.
  { eexists; split; reflexivity. }
  apply orb_false_iff in Hempty. destruct Hempty as [Hi Ht].
  destruct ((rows templ >? rows image) || (cols templ >? cols image)) eqn:Hlarge; cbn.
  { eexists; split; reflexivity. }
  apply orb_false_iff in Hlarge. destruct Hlarge as [Hr Hc].
  rewrite Z.gtb_ltb in Hr, Hc. apply Z.ltb_ge in Hr. apply Z.ltb_ge in Hc.
  destruct H as [H | [H | [H | H]]]; try congruence; lia.
Qed.

(** C1 (amended).  Every result the single matcher produces has
    found = (confidence >= threshold) when the correlation completed, and
    found = false with confidence 0 on the degenerate-input and
    caught-exception paths; so the equivalence holds on every path as soon as
    the threshold is positive. *)
Theorem parallel_template_match_found_iff image templ method threshold id w :
  exists r w',
    parallel_template_match E image templ method threshold id w = (Normal r, w')
    /\ (if correlated E image templ method
        then found r = double_ge (confidence r) threshold
        else found r = false /\ confidence r = 0%float)
    /\ (PrimFloat.ltb 0 threshold = true ->
        found r = double_ge (confidence r) threshold).
Proof.
  destruct (parallel_template_match_returns image templ method threshold id w)
    as (w' & Hrun & _).
  exists (matchOne E image templ method threshold id), w'.
  split; [exact Hrun |].
  destruct (correlated E image templ method) eqn:Hc.
  - destruct (matchOne_correlated image templ method threshold id Hc)
      as (surface & mn & mx & lmn & lmx & _ & _ & ->).
    cbn. split; [reflexivity | intros _; reflexivity].
  - rewrite (matchOne_not_correlated image templ method threshold id Hc). cbn.
    split; [split; reflexivity |].
    intros Hpos. symmetry. apply zero_below_positive. exact Hpos.
Qed.

End SingleMatcher.

Lemma parallel_template_match_degenerate_witness :
  exists w',
    parallel_template_match (Env_peak 1 origin always) image22 (mkMat 3 1 1 [[1]; [2]; [3]])
      TM_CCOEFF_NORMED 0.5%float 4 World0
      = (Normal (mkMatchResult 0%float origin 0%float false 4), w')
    /\ trace w' = trace World0 ++ [EvSingleMatch 4].
Proof.
  apply (parallel_template_match_degenerate (Env_peak 1 origin always) image22
           (mkMat 3 1 1 [[1]; [2]; [3]]) TM_CCOEFF_NORMED 0.5%float 4 World0).
  right. right. left. cbn. lia.
Defined.

Lemma parallel_template_match_found_iff_witness :
  PrimFloat.ltb 0 0.5%float = true
  /\ exists r w',
       parallel_template_match (Env_peak 1 origin always) Mat0 templ11
         TM_CCOEFF_NORMED 0.5%float 0 World0 = (Normal r, w')
       /\ found r = double_ge (confidence r) 0.5%float.
Proof.
  split; [reflexivity |].
  destruct (parallel_template_match_found_iff (Env_peak 1 origin always) Mat0 templ11
              TM_CCOEFF_NORMED 0.5%float 0 World0) as (r & w' & Hrun & _ & Hpos).
  exists r, w'. split; [exact Hrun | apply Hpos; reflexivity].
Defined.

(** The claim as first written fails at threshold 0 on an empty image: the
    result has found = false although its confidence 0 reaches the threshold. *)
Lemma parallel_template_match_found_iff_fails_at_zero :
  exists r w',
    parallel_template_match (Env_peak 1 origin always) Mat0 templ11
      TM_CCOEFF_NORMED 0%float 0 World0 = (Normal r, w')
    /\ found r = false
    /\ double_ge (confidence r) 0%float = true.
Proof.
  eexists; eexists. split; [reflexivity |]. split; reflexivity.
Qed.

(** *** C2, C7, C8, C9: the health analyzer *)

Section HealthAnalyzer.

Variable E : Env.

Lemma std_async_parallel_template_match {S} image templ method threshold id
    (s : S) w :
  async_launch_ok E (launched w) = true ->
  exists w',
    std_async E (parallel_template_match E image templ method threshold id) s w
      = (Normal (Normal (matchOne E image templ method threshold id)), s, w')
    /\ launched w' = Datatypes.S (launched w) /\ PyErr w' = PyErr w.
Proof.
  intros Hok. unfold std_async. rewrite Hok.
  destruct (parallel_template_match_returns E image templ method threshold id
              (mkWorld (stdout w) (trace w) (Datatypes.S (launched w)) (PyErr w)))
    as (w' & -> & Hl & Hp).
  exists w'. cbn in Hl, Hp. auto.
Qed.

Lemma std_async_no_thread {S A} (task : Fn A) (s : S) w :
  async_launch_ok E (launched w) = false ->
  std_async E task s w
  = (Throw (std_exception "Resource temporarily unavailable"), s,
     mkWorld (stdout w) (trace w) (Datatypes.S (launched w)) (PyErr w)).
Proof. intros Hno. unfold std_async. rewrite Hno. reflexivity. Qed.

(** The clipped rectangle lies inside the screenshot, so taking the
    sub-matrix does not raise. *)
Lemma health_roi_inside screenshot templ loc :
  let roi := health_roi screenshot templ loc in
  (Rect_width roi >? 0) && (Rect_height roi >? 0) = true ->
  exists health_region,
    Mat_roi screenshot roi = Normal health_region
    /\ rows health_region = Rect_height roi
    /\ cols health_region = Rect_width roi.
Proof.
  intros roi Hpos. apply andb_true_iff in Hpos. destruct Hpos as [Hw Hh].
  rewrite Z.gtb_ltb in Hw, Hh. apply Z.ltb_lt in Hw. apply Z.ltb_lt in Hh.
  unfold Mat_roi.
  assert (Hin : (0 <=? Rect_x roi) && (0 <=? Rect_width roi)
                && (Rect_x roi + Rect_width roi <=? cols screenshot)
                && (0 <=? Rect_y roi) && (0 <=? Rect_height roi)
                && (Rect_y roi + Rect_height roi <=? rows screenshot) = true).
  { subst roi. unfold health_roi in *. cbn in *.
    repeat (apply andb_true_iff; split); apply Z.leb_le; lia. }
  rewrite Hin. eexists. split; [reflexivity | split; reflexivity].
Qed.

Lemma combine_map_map {A B C} (f : A -> B) (g : A -> C) (l : list A) :
  combine (map f l) (map g l) = map (fun a => (f a, g a)) l.
Proof. induction l as [| a l IH]; cbn; [reflexivity | now rewrite IH]. Qed.

(** The saturating sum of two range masks is their element-wise OR. *)
Lemma range_mask_sum hsv lo1 hi1 lo2 hi2 :
  Mat_add (inRange hsv lo1 hi1) (inRange hsv lo2 hi2)
  = Normal (mask_union (inRange hsv lo1 hi1) (inRange hsv lo2 hi2)).
Proof.
  unfold Mat_add, mask_union, inRange. cbn.
  rewrite !Z.eqb_refl. cbn. f_equal. f_equal.
  rewrite combine_map_map, !map_map. apply map_ext. intros px. cbn.
  destruct (pixel_in_range px lo1 hi1), (pixel_in_range px lo2 hi2); reflexivity.
Qed.

(** Counting the set elements of the summed mask counts the red pixels. *)
Lemma count_red_mask hsv :
  countNonZero (mask_union (inRange hsv lower_red1 upper_red1)
                           (inRange hsv lower_red2 upper_red2))
  = Normal (count_red hsv).
Proof.
  unfold countNonZero, mask_union, inRange, count_red. cbn. f_equal. f_equal.
  rewrite combine_map_map, map_map. cbn.
  induction (data hsv) as [| px l IH]; [reflexivity |].
  cbn [map filter].
  assert (Hpx : red_pixel px = pixel_in_range px lower_red1 upper_red1
                               || pixel_in_range px lower_red2 upper_red2)
    by reflexivity.
  rewrite Hpx.
  destruct (pixel_in_range px lower_red1 upper_red1),
           (pixel_in_range px lower_red2 upper_red2); cbn; now rewrite IH.
Qed.

Lemma analyze_health_color_normal health_region hsv r w :
  cv_cvtColor E health_region COLOR_BGR2HSV = Normal hsv ->
  analyze_health_color E health_region r w
  = (Normal tt, set_health_percentage (red_fraction health_region hsv) r,
     mkWorld (stdout w) (trace w ++ [EvCvtColor health_region COLOR_BGR2HSV])
             (launched w) (PyErr w)).
Proof.
  intros Hcvt. unfold analyze_health_color. run. rewrite Hcvt.
  rewrite range_mask_sum, count_red_mask. unfold red_fraction.
  destruct (int_mul (rows health_region) (cols health_region) >? 0); reflexivity.
Qed.

Lemma analyze_health_color_throw health_region e r w :
  cv_cvtColor E health_region COLOR_BGR2HSV = Throw e ->
  analyze_health_color E health_region r w
  = (Throw e, r,
     mkWorld (stdout w) (trace w ++ [EvCvtColor health_region COLOR_BGR2HSV])
             (launched w) (PyErr w)).
Proof.
  intros Hcvt. unfold analyze_health_color. run. rewrite Hcvt. reflexivity.
Qed.


(** The health analyzer always returns, and what it returns is
    [analyzeHealth]. *)
Lemma detect_health_parallel_returns screenshot bar empty health_threshold w :
  exists w',
    detect_health_parallel E screenshot bar empty health_threshold w
    = (Normal (analyzeHealth E screenshot bar empty health_threshold w), w').
Proof.
  unfold detect_health_parallel, analyzeHealth, analysed_region, matches_collected.
  run.
  destruct (Mat_empty screenshot || Mat_empty bar || Mat_empty empty); cbn.
  { eexists; reflexivity. }
  destruct (async_launch_ok E (launched w)) eqn:Hl1; cbn.
  2:{ rewrite std_async_no_thread by exact Hl1. cbn. eexists; reflexivity. }
  destruct (std_async_parallel_template_match screenshot bar TM_CCOEFF_NORMED
              0.7%float 0 (mkHealthResult 0%float false false origin false) w Hl1)
    as (w1 & -> & Hw1 & _).
  destruct (async_launch_ok E (Datatypes.S (launched w))) eqn:Hl2; cbn.
  2:{ rewrite std_async_no_thread by (rewrite Hw1; exact Hl2). cbn.
      eexists; reflexivity. }
  rewrite <- Hw1 in Hl2.
  destruct (std_async_parallel_template_match screenshot empty TM_CCOEFF_NORMED
              0.8%float 1 (mkHealthResult 0%float false false origin false) w1 Hl2)
    as (w2 & -> & _ & _).
  destruct (found (matchOne E screenshot bar TM_CCOEFF_NORMED 0.7%float 0)) eqn:Hf;
    cbn; [| eexists; reflexivity].
  destruct ((Rect_width (health_roi screenshot bar
               (max_loc (matchOne E screenshot bar TM_CCOEFF_NORMED 0.7%float 0))) >? 0)
            && (Rect_height (health_roi screenshot bar
               (max_loc (matchOne E screenshot bar TM_CCOEFF_NORMED 0.7%float 0))) >? 0))
    eqn:Hroi; cbn; [| eexists; reflexivity].
  destruct (health_roi_inside screenshot bar _ Hroi) as (region & -> & _ & _).
  destruct (cv_cvtColor E region COLOR_BGR2HSV) as [hsv | e] eqn:Hcvt.
  - rewrite (analyze_health_color_normal region hsv _ _ Hcvt). cbn.
    eexists; reflexivity.
  - rewrite (analyze_health_color_throw region e _ _ Hcvt). cbn.
    destruct e; eexists; reflexivity.
Qed.


Lemma int_wrap_small z : - 2147483648 <= z <= INT_MAX -> int_wrap z = z.
Proof.
  unfold int_wrap, INT_MAX. intros H. rewrite Z.mod_small; lia.
Qed.

(** A region that reaches the colour analysis has positive dimensions. *)
Lemma analysed_region_positive screenshot bar empty w region :
  analysed_region E screenshot bar empty w = Some region ->
  matches_collected E screenshot bar empty w = true
  /\ 0 < rows region /\ 0 < cols region.
Proof.
  unfold analysed_region.
  destruct (matches_collected E screenshot bar empty w); [| discriminate].
  destruct (found _); [| discriminate].
  destruct ((Rect_width _ >? 0) && (Rect_height _ >? 0)) eqn:Hroi; [| discriminate].
  destruct (health_roi_inside screenshot bar _ Hroi) as (m & -> & Hr & Hc).
  intros [= <-]. apply andb_true_iff in Hroi. destruct Hroi as [Hw Hh].
  rewrite Z.gtb_ltb in Hw, Hh. apply Z.ltb_lt in Hw. apply Z.ltb_lt in Hh.
  split; [reflexivity | lia].
Qed.

(** When a region reaches the colour analysis, the last primitive the run
    invokes is the colour conversion of that region. *)
Lemma detect_health_parallel_converts screenshot bar empty health_threshold w region :
  analysed_region E screenshot bar empty w = Some region ->
  exists w' before,
    detect_health_parallel E screenshot bar empty health_threshold w
    = (Normal (analyzeHealth E screenshot bar empty health_threshold w), w')
    /\ trace w' = before ++ [EvCvtColor region COLOR_BGR2HSV].
Proof.
  unfold detect_health_parallel, analyzeHealth, analysed_region, matches_collected.
  run.
  destruct (Mat_empty screenshot || Mat_empty bar || Mat_empty empty); cbn;
    [discriminate |].
  destruct (async_launch_ok E (launched w)) eqn:Hl1; cbn; [| discriminate].
  destruct (std_async_parallel_template_match screenshot bar TM_CCOEFF_NORMED
              0.7%float 0 (mkHealthResult 0%float false false origin false) w Hl1)
    as (w1 & -> & Hw1 & _).
  destruct (async_launch_ok E (Datatypes.S (launched w))) eqn:Hl2; cbn;
    [| discriminate].
  rewrite <- Hw1 in Hl2.
  destruct (std_async_parallel_template_match screenshot empty TM_CCOEFF_NORMED
              0.8%float 1 (mkHealthResult 0%float false false origin false) w1 Hl2)
    as (w2 & -> & _ & _).
  destruct (found (matchOne E screenshot bar TM_CCOEFF_NORMED 0.7%float 0)) eqn:Hf;
    cbn; [| discriminate].
  destruct ((Rect_width (health_roi screenshot bar
               (max_loc (matchOne E screenshot bar TM_CCOEFF_NORMED 0.7%float 0))) >? 0)
            && (Rect_height (health_roi screenshot bar
               (max_loc (matchOne E screenshot bar TM_CCOEFF_NORMED 0.7%float 0))) >? 0))
    eqn:Hroi; cbn; [| discriminate].
  destruct (health_roi_inside screenshot bar _ Hroi) as (m & -> & _ & _).
  intros [= ->].
  destruct (cv_cvtColor E region COLOR_BGR2HSV) as [hsv | e] eqn:Hcvt.
  - rewrite (analyze_health_color_normal region hsv _ _ Hcvt). cbn.
    eexists; exists (trace w2); split; reflexivity.
  - rewrite (analyze_health_color_throw region e _ _ Hcvt). cbn.
    destruct e; eexists; exists (trace w2); split; reflexivity.
Qed.

(** C2 (amended).  The health analyzer always returns.  When it ran to the
    end of its try block, isCritical = (healthFraction < healthThreshold) and
    isEmpty = (emptyTemplateMatched or healthFraction < 0.05); on the
    empty-input early return and on the caught-exception path the result
    keeps healthFraction = 0, isEmpty = false and isCritical = false. *)
Theorem detect_health_parallel_flags screenshot bar empty health_threshold w :
  exists r w',
    detect_health_parallel E screenshot bar empty health_threshold w = (Normal r, w')
    /\ if analysis_completed E screenshot bar empty w then
         is_critical r = double_lt (health_percentage r) health_threshold
         /\ is_empty r
            = (found (matchOne E screenshot empty TM_CCOEFF_NORMED 0.8%float 1)
               || double_lt (health_percentage r) 0.05%float)
       else
         health_percentage r = 0%float /\ is_empty r = false /\ is_critical r = false.
Proof.
  destruct (detect_health_parallel_returns screenshot bar empty health_threshold w)
    as (w' & Hrun).
  eexists; exists w'. split; [exact Hrun |].
  unfold analysis_completed, analyzeHealth.
  destruct (matches_collected E screenshot bar empty w); cbn;
    [| repeat split; reflexivity].
  destruct (analysed_region E screenshot bar empty w) as [region |]; cbn;
    [| split; reflexivity].
  destruct (cv_cvtColor E region COLOR_BGR2HSV); cbn; repeat split; reflexivity.
Qed.

(** C7 (amended).  When the two matches were collected, barFound and
    barLocation are the found flag and the maximum location of the
    bar-template match, whether or not the bar was found; otherwise (empty
    input, or a matcher task that could not be launched) barFound is false and
    barLocation is the origin. *)
Theorem detect_health_parallel_location screenshot bar empty health_threshold w :
  exists r w',
    detect_health_parallel E screenshot bar empty health_threshold w = (Normal r, w')
    /\ if matches_collected E screenshot bar empty w then
         health_bar_found r
         = found (matchOne E screenshot bar TM_CCOEFF_NORMED 0.7%float 0)
         /\ health_location r
            = max_loc (matchOne E screenshot bar TM_CCOEFF_NORMED 0.7%float 0)
       else health_bar_found r = false /\ health_location r = origin.
Proof.
  destruct (detect_health_parallel_returns screenshot bar empty health_threshold w)
    as (w' & Hrun).
  eexists; exists w'. split; [exact Hrun |].
  unfold analyzeHealth.
  destruct (matches_collected E screenshot bar empty w); cbn;
    [| split; reflexivity].
  destruct (analysed_region E screenshot bar empty w) as [region |]; cbn;
    [| split; reflexivity].
  destruct (cv_cvtColor E region COLOR_BGR2HSV); cbn; split; reflexivity.
Qed.

(** C8.  In the colour analysis of a non-empty clipped region, the summed mask
    is the element-wise OR of the two range masks, range A selecting hue in
    [0,10] and range B hue in [170,180], both with saturation in [120,255] and
    value in [70,255]; its non-zero count is the number of pixels either range
    selects; and healthFraction is that count divided by the number of pixels
    of the region. *)
Theorem detect_health_parallel_red_fraction screenshot bar empty health_threshold w
    region hsv :
  analysed_region E screenshot bar empty w = Some region ->
  cv_cvtColor E region COLOR_BGR2HSV = Normal hsv ->
  rows region * cols region <= INT_MAX ->
  Mat_add (inRange hsv lower_red1 upper_red1) (inRange hsv lower_red2 upper_red2)
  = Normal (mask_union (inRange hsv lower_red1 upper_red1)
                       (inRange hsv lower_red2 upper_red2))
  /\ (forall h s v,
        pixel_in_range [h; s; v] lower_red1 upper_red1
        = ((0 <=? h) && (h <=? 10)) && ((120 <=? s) && (s <=? 255))
          && ((70 <=? v) && (v <=? 255)))
  /\ (forall h s v,
        pixel_in_range [h; s; v] lower_red2 upper_red2
        = ((170 <=? h) && (h <=? 180)) && ((120 <=? s) && (s <=? 255))
          && ((70 <=? v) && (v <=? 255)))
  /\ countNonZero (mask_union (inRange hsv lower_red1 upper_red1)
                              (inRange hsv lower_red2 upper_red2))
     = Normal (Z.of_nat (List.length
         (filter (fun px => pixel_in_range px lower_red1 upper_red1
                            || pixel_in_range px lower_red2 upper_red2) (data hsv))))
  /\ exists r w',
       detect_health_parallel E screenshot bar empty health_threshold w = (Normal r, w')
       /\ health_percentage r
          = PrimFloat.div (double_of_int (count_red hsv))
                          (double_of_int (rows region * cols region)).
Proof.
  intros Hregion Hcvt Hfits.
  split; [apply range_mask_sum |].
  split.
  { intros h s v. cbn.
    destruct (0 <=? h), (h <=? 10), (120 <=? s), (s <=? 255), (70 <=? v), (v <=? 255);
      reflexivity. }
  split.
  { intros h s v. cbn.
    destruct (170 <=? h), (h <=? 180), (120 <=? s), (s <=? 255), (70 <=? v),
             (v <=? 255); reflexivity. }
  split; [apply count_red_mask |].
  destruct (detect_health_parallel_returns screenshot bar empty health_threshold w)
    as (w' & Hrun).
  eexists; exists w'. split; [exact Hrun |].
  destruct (analysed_region_positive _ _ _ _ _ Hregion) as (Hcoll & Hr & Hc).
  unfold analyzeHealth. rewrite Hcoll, Hregion, Hcvt. cbn.
  unfold red_fraction, int_mul.
  assert (Htotal : 0 < rows region * cols region)
    by (apply Z.mul_pos_pos; assumption).
  rewrite int_wrap_small by lia.
  assert (Hpos : (rows region * cols region >? 0) = true)
    by (rewrite Z.gtb_ltb; apply Z.ltb_lt; exact Htotal).
  rewrite Hpos. reflexivity.
Qed.

(** C9.  Two runs of the health analyzer whose colour analysis receives the
    same region pixel data (each run ends its trace with the colour conversion
    of that region) return the same healthFraction, whatever the rest of the
    screenshots, the templates, the thresholds and the worlds are. *)
Theorem detect_health_parallel_fraction_deterministic
    screenshot1 bar1 empty1 threshold1 w1
    screenshot2 bar2 empty2 threshold2 w2 region :
  analysed_region E screenshot1 bar1 empty1 w1 = Some region ->
  analysed_region E screenshot2 bar2 empty2 w2 = Some region ->
  exists r1 w1' r2 w2' before1 before2,
    detect_health_parallel E screenshot1 bar1 empty1 threshold1 w1 = (Normal r1, w1')
    /\ detect_health_parallel E screenshot2 bar2 empty2 threshold2 w2 = (Normal r2, w2')
    /\ trace w1' = before1 ++ [EvCvtColor region COLOR_BGR2HSV]
    /\ trace w2' = before2 ++ [EvCvtColor region COLOR_BGR2HSV]
    /\ health_percentage r1 = health_percentage r2.
Proof.
  intros H1 H2.
  destruct (detect_health_parallel_converts screenshot1 bar1 empty1 threshold1 w1
              region H1) as (w1' & before1 & Hrun1 & Ht1).
  destruct (detect_health_parallel_converts screenshot2 bar2 empty2 threshold2 w2
              region H2) as (w2' & before2 & Hrun2 & Ht2).
  eexists; exists w1'; eexists; exists w2', before1, before2.
  split; [exact Hrun1 |]. split; [exact Hrun2 |].
  split; [exact Ht1 |]. split; [exact Ht2 |].
  destruct (analysed_region_positive _ _ _ _ _ H1) as (Hc1 & _).
  destruct (analysed_region_positive _ _ _ _ _ H2) as (Hc2 & _).
  unfold analyzeHealth. rewrite Hc1, Hc2, H1, H2.
  destruct (cv_cvtColor E region COLOR_BGR2HSV); reflexivity.
Qed.

End HealthAnalyzer.

(** The claim as first written fails on the empty-input early return: the
    fraction 0 is below both 0.05 and the threshold 0.3, yet isEmpty and
    isCritical are false. *)
Lemma detect_health_parallel_flags_fail_on_empty_input :
  exists r w',
    detect_health_parallel (Env_peak 1 origin always) Mat0 templ11 templ11 0.3%float World0
      = (Normal r, w')
    /\ is_critical r = false
    /\ double_lt (health_percentage r) 0.3%float = true
    /\ is_empty r = false
    /\ double_lt (health_percentage r) 0.05%float = true.
Proof.
  eexists; eexists. split; [reflexivity |]. repeat split; reflexivity.
Qed.

(** The claim as first written fails when the bar is not found: the location
    is the position of the best score, not the origin. *)
Lemma detect_health_parallel_location_not_origin :
  exists r w',
    detect_health_parallel (Env_peak 0.5%float (mkPoint 1 1) always) image22 templ11 templ11
      0.3%float World0 = (Normal r, w')
    /\ health_bar_found r = false
    /\ health_location r = mkPoint 1 1
    /\ health_location r <> origin.
Proof.
  eexists; eexists. split; [reflexivity |]. repeat split; try reflexivity.
  cbn. discriminate.
Qed.

Lemma detect_health_parallel_red_fraction_witness :
  exists r w',
    detect_health_parallel (Env_peak 1 origin always) shot_a bar12 pix111 0.3%float World0
      = (Normal r, w')
    /\ health_percentage r = PrimFloat.div (double_of_int 1) (double_of_int 2).
Proof.
  destruct (detect_health_parallel_red_fraction (Env_peak 1 origin always)
              shot_a bar12 pix111 0.3%float World0 bar12 bar12)
    as (_ & _ & _ & _ & r & w' & Hrun & Hfrac).
  - reflexivity.
  - reflexivity.
  - unfold INT_MAX. cbn. lia.
  - exists r, w'. split; [exact Hrun | exact Hfrac].
Defined.

Lemma detect_health_parallel_fraction_deterministic_witness :
  exists r1 w1' r2 w2',
    detect_health_parallel (Env_peak 1 origin always) shot_a bar12 pix111 0.3%float
      World0 = (Normal r1, w1')
    /\ detect_health_parallel (Env_peak 1 origin always) shot_b bar12 templ11 0.9%float
         (mkWorld ["started"%string] [] 2 None) = (Normal r2, w2')
    /\ health_percentage r1 = health_percentage r2.
Proof.
  destruct (detect_health_parallel_fraction_deterministic (Env_peak 1 origin always)
              shot_a bar12 pix111 0.3%float World0
              shot_b bar12 templ11 0.9%float (mkWorld ["started"%string] [] 2 None)
              bar12)
    as (r1 & w1' & r2 & w2' & _ & _ & Hrun1 & Hrun2 & _ & _ & Heq).
  - reflexivity.
  - reflexivity.
  - exists r1, w1', r2, w2'. split; [exact Hrun1 |]. split; [exact Hrun2 | exact Heq].
Defined.

(** *** Loops *)

Section Loops.

Context {S A : Type}.

Lemma for_each_ext (f g : A -> M S unit) (l : list A) :
  (forall a, In a l -> f a = g a) -> for_each l f = for_each l g.
Proof.
  induction l as [| a l IH]; intros Hfg; [reflexivity |].
  cbn. rewrite (Hfg a) by (left; reflexivity).
  rewrite IH by (intros b Hb; apply Hfg; right; exact Hb). reflexivity.
Qed.

Lemma for_each_nth_from (body : nat -> A -> M S unit) (d : A) (l pre : list A) :
  for_each (seq (List.length pre) (List.length l))
           (fun i => body i (nth i (pre ++ l) d))
  = for_each (combine (seq (List.length pre) (List.length l)) l)
             (fun p => body (fst p) (snd p)).
Proof.
  revert pre. induction l as [| a l IH]; intros pre; [reflexivity |].
  cbn [List.length seq combine for_each fst snd].
  rewrite nth_middle.
  specialize (IH (pre ++ [a])).
  rewrite length_app, Nat.add_1_r, <- app_assoc in IH. cbn [app] in IH.
  rewrite IH. reflexivity.
Qed.

(** An index loop that reads [l] at its index is a loop over [l]. *)
Lemma for_index_nth (body : nat -> A -> M S unit) (d : A) (l : list A) :
  for_index (List.length l) (fun i => body i (nth i l d))
  = for_each (combine (seq 0 (List.length l)) l) (fun p => body (fst p) (snd p)).
Proof. exact (for_each_nth_from body d l []). Qed.

End Loops.

Lemma for_index_nth2 {S A B} (body : nat -> A -> B -> M S unit) (da : A) (db : B)
    (la : list A) (lb : list B) :
  List.length la = List.length lb ->
  for_index (List.length la) (fun i => body i (nth i la da) (nth i lb db))
  = for_each (combine (seq 0 (List.length la)) (combine la lb))
             (fun p => body (fst p) (fst (snd p)) (snd (snd p))).
Proof.
  intros Hlen.
  assert (Hc : List.length (combine la lb) = List.length la)
    by (rewrite length_combine, <- Hlen; apply Nat.min_id).
  rewrite <- Hc at 2.
  rewrite <- (for_index_nth (fun i p => body i (fst p) (snd p)) (da, db)).
  rewrite Hc. unfold for_index. apply for_each_ext. intros i _.
  rewrite combine_nth by exact Hlen. reflexivity.
Qed.

(** *** C5, C6, C10: the multi-template matcher *)

Section MultiTemplateMatcher.

Variable E : Env.

Hypothesis threads_available : forall n, async_launch_ok E n = true.

Lemma launch_loop image method (pairs : list (Mat * float)) :
  forall k fr w,
  exists w',
    for_each (combine (seq k (List.length pairs)) pairs)
      (fun p => launch_match E image method (fst p) (fst (snd p)) (snd (snd p))) fr w
    = (Normal tt,
       mk_mtm_frame
         (mtm_futures fr
          ++ map (fun p => Normal (matchOne E image (fst (snd p)) method (snd (snd p))
                                     (int_wrap (Z.of_nat (fst p)))))
                 (combine (seq k (List.length pairs)) pairs))
         (mtm_results fr),
       w')
    /\ PyErr w' = PyErr w.
Proof.
  induction pairs as [| [templ threshold] pairs IH]; intros k fr w.
  - cbn. rewrite app_nil_r. destruct fr. eexists; split; reflexivity.
  - cbn [List.length seq combine for_each map fst snd].
    unfold bind at 1. unfold launch_match at 1. unfold bind at 1.
    destruct (std_async_parallel_template_match E image templ method threshold
                (int_wrap (Z.of_nat k)) fr w (threads_available _))
      as (w1 & -> & _ & Hp1).
    unfold modify at 1.
    destruct (IH (Datatypes.S k)
                (mk_mtm_frame
                   (mtm_futures fr
                    ++ [Normal (matchOne E image templ method threshold
                                  (int_wrap (Z.of_nat k)))])
                   (mtm_results fr)) w1) as (w2 & Hloop & Hp2).
    cbn [mtm_futures mtm_results] in Hloop. rewrite <- app_assoc in Hloop.
    exists w2. split; [exact Hloop | congruence].
Qed.

Lemma collect_loop (rs : list MatchResult) :
  forall fr w,
    for_each (map Normal rs) collect_match fr w
    = (Normal tt, mk_mtm_frame (mtm_futures fr) (mtm_results fr ++ rs), w).
Proof.
  induction rs as [| r rs IH]; intros fr w.
  - cbn. rewrite app_nil_r. destruct fr. reflexivity.
  - cbn [map for_each]. unfold bind at 1. unfold collect_match at 1. run.
    rewrite IH. cbn. rewrite <- app_assoc. reflexivity.
Qed.

(** With threads at hand, the C++ matcher returns one single-matcher result
    per pair, in order, numbered from 0. *)
Lemma multi_template_match_returns image templates thresholds method w :
  List.length templates = List.length thresholds ->
  exists w',
    multi_template_match E image templates thresholds method w
    = (Normal (match_each E image templates thresholds method), w')
    /\ PyErr w' = PyErr w.
Proof.
  intros Hlen. unfold multi_template_match, run_body.
  rewrite Hlen, Nat.eqb_refl. cbn [negb]. rewrite <- Hlen.
  rewrite (for_index_nth2 (launch_match E image method) Mat0 0%float
             templates thresholds Hlen).
  assert (Hc : List.length (combine templates thresholds) = List.length templates)
    by (rewrite length_combine, <- Hlen; apply Nat.min_id).
  destruct (launch_loop image method (combine templates thresholds) 0
              (mk_mtm_frame [] []) w) as (w1 & Hloop & Hp).
  rewrite Hc in Hloop. unfold bind. rewrite Hloop. unfold get.
  cbn [mtm_futures mtm_results app].
  rewrite <- (map_map _ Normal), collect_loop. cbn.
  exists w1. split; [reflexivity | exact Hp].
Qed.


(** The translation loop keeps the array entries, in order, when each of them
    converts; it invokes nothing and launches nothing. *)
Lemma translate_loop (pairs : list (PyObject * PyObject)) :
  forall mats k fr w,
    Forall2 (fun p m => pyarray_to_mat (Some (fst p)) = Normal m)
            (flat_map keep_pair pairs) mats ->
    exists w',
      for_each (combine (seq k (List.length pairs)) pairs)
        (fun p => translate_item (fst (snd p)) (snd (snd p))) fr w
      = (Normal tt,
         mk_cmtm_frame (cmtm_templates fr ++ mats)
           (cmtm_thresholds fr
            ++ map (fun p => threshold_of (snd p)) (flat_map keep_pair pairs))
           (cmtm_results fr) (cmtm_gil fr),
         w')
      /\ stdout w' = stdout w /\ trace w' = trace w /\ launched w' = launched w.
Proof.
  induction pairs as [| [template_item threshold_item] pairs IH];
    intros mats k fr w Hconv.
  - cbn in *. inversion Hconv; subst. rewrite !app_nil_r. destruct fr.
    eexists; repeat split; reflexivity.
  - cbn [List.length seq combine for_each fst snd flat_map] in *.
    unfold keep_pair at 1 in Hconv. unfold keep_pair at 1. cbn [fst snd] in *.
    unfold bind at 1. unfold translate_item at 1.
    destruct (as_array template_item) as [arr |] eqn:Harr.
    + cbn [app] in Hconv. inversion Hconv as [| p m accepted mats' Hm Hrest]; subst.
      cbn [fst] in Hm. run. rewrite Hm. unfold PyFloat_AsDouble, threshold_of at 1.
      cbn [snd map app].
      destruct (as_double threshold_item) as [d |]; run;
        match goal with
        | |- context [for_each _ _ ?fr1 ?w1] =>
            destruct (IH mats' (Datatypes.S k) fr1 w1 Hrest)
              as (w2 & Hloop & Hs & Ht & Hl)
        end;
        cbn in Hloop, Hs, Ht, Hl; rewrite <- !app_assoc in Hloop;
        exists w2; (split; [exact Hloop | auto]).
    + cbn [app] in Hconv. unfold ret at 1.
      destruct (IH mats (Datatypes.S k) fr w Hconv) as (w2 & Hloop & Hrest).
      exists w2. split; [exact Hloop | exact Hrest].
Qed.

Lemma accepted_pairs_length template_list :
  forall threshold_list,
    List.length template_list = List.length threshold_list ->
    List.length (accepted_pairs template_list threshold_list)
    = List.length (filter PyArray_Check template_list).
Proof.
  unfold accepted_pairs.
  induction template_list as [| t tl IH]; intros [| th thl] Hlen;
    try discriminate; [reflexivity |].
  cbn [combine flat_map filter]. rewrite length_app.
  injection Hlen as Hlen. rewrite (IH thl Hlen).
  unfold keep_pair, PyArray_Check. cbn [fst].
  destruct (as_array t); reflexivity.
Qed.

Lemma no_array_no_pair template_list :
  forall threshold_list,
    Forall (fun o => PyArray_Check o = false) template_list ->
    accepted_pairs template_list threshold_list = [].
Proof.
  unfold accepted_pairs.
  induction template_list as [| t tl IH]; intros [| th thl] Hnone; try reflexivity.
  inversion Hnone as [| ? ? Ht Htl]; subst.
  cbn [combine flat_map]. rewrite (IH thl Htl), app_nil_r.
  unfold keep_pair, PyArray_Check in *. cbn [fst].
  destruct (as_array t); [discriminate | reflexivity].
Qed.

Lemma match_each_length image templates thresholds method :
  List.length templates = List.length thresholds ->
  List.length (match_each E image templates thresholds method) = List.length templates.
Proof.
  intros Hlen. unfold match_each.
  rewrite length_map, !length_combine, length_seq, <- Hlen, !Nat.min_id. reflexivity.
Qed.

End MultiTemplateMatcher.

Section MatchMany.

Variable E : Env.

(** C5.  With lists of unequal length the entry point returns NULL with a
    Python error pending and matches nothing: the trace gains no event (no
    single-matcher invocation), no task is launched and no result is built.
    The error is the ValueError about the sizes, unless the image array itself
    could not be converted, which is reported first. *)
Theorem cpp_multi_template_match_size_mismatch image_array template_list
    threshold_list method w :
  List.length template_list <> List.length threshold_list ->
  exists w',
    cpp_multi_template_match E image_array template_list threshold_list method w
    = (Normal None, w')
    /\ trace w' = trace w
    /\ launched w' = launched w
    /\ PyErr w'
       = Some match pyarray_to_mat (Some image_array) with
              | Normal _ =>
                  (PyExc_ValueError,
                   "Template and threshold lists must have the same size"%string)
              | Throw e =>
                  (PyExc_RuntimeError,
                   ("Error in multi-template matching: " ++ what e)%string)
              end.
Proof.
  intros Hlen. apply Nat.eqb_neq in Hlen.
  unfold cpp_multi_template_match. run.
  destruct (pyarray_to_mat (Some image_array)) as [image | e]; cbn.
  - rewrite Hlen. cbn. eexists; repeat split; reflexivity.
  - eexists; repeat split; reflexivity.
Qed.

(** The C++ matcher, given vectors of unequal size, logs and returns no
    result without launching anything. *)
Lemma multi_template_match_size_mismatch image templates thresholds method w :
  List.length templates <> List.length thresholds ->
  exists w',
    multi_template_match E image templates thresholds method w = (Normal [], w')
    /\ trace w' = trace w /\ launched w' = launched w.
Proof.
  intros Hlen. apply Nat.eqb_neq in Hlen.
  unfold multi_template_match. run. rewrite Hlen. cbn.
  eexists; repeat split; reflexivity.
Qed.

(** C10.  With lists of equal length none of whose entries is an array, the
    entry point returns NULL with an error pending instead of an empty list,
    and matches nothing; the error is the ValueError "No valid templates
    provided" (a failed conversion of the image array is reported first). *)
Theorem cpp_multi_template_match_no_valid_template image_array template_list
    threshold_list method w :
  List.length template_list = List.length threshold_list ->
  Forall (fun o => PyArray_Check o = false) template_list ->
  exists w',
    cpp_multi_template_match E image_array template_list threshold_list method w
    = (Normal None, w')
    /\ trace w' = trace w
    /\ launched w' = launched w
    /\ PyErr w'
       = Some match pyarray_to_mat (Some image_array) with
              | Normal _ => (PyExc_ValueError, "No valid templates provided"%string)
              | Throw e =>
                  (PyExc_RuntimeError,
                   ("Error in multi-template matching: " ++ what e)%string)
              end.
Proof.
  intros Hlen Hnone.
  unfold cpp_multi_template_match. run.
  destruct (pyarray_to_mat (Some image_array)) as [image | e]; cbn.
  2:{ eexists; repeat split; reflexivity. }
  rewrite Hlen, Nat.eqb_refl. cbn. rewrite <- Hlen.
  rewrite (for_index_nth2 (fun _ => translate_item) PyObject0 PyObject0
             template_list threshold_list Hlen).
  assert (Hc : List.length (combine template_list threshold_list)
               = List.length template_list)
    by (rewrite length_combine, <- Hlen; apply Nat.min_id).
  pose proof (no_array_no_pair template_list threshold_list Hnone) as Hacc.
  unfold accepted_pairs in Hacc.
  destruct (translate_loop (combine template_list threshold_list) [] 0
              (mk_cmtm_frame [] [] [] true) w) as (w1 & Hloop & Hs & Ht & Hl).
  { rewrite Hacc. constructor. }
  rewrite Hc, Hacc in Hloop. rewrite Hloop. cbn.
  eexists; repeat split; cbn; assumption.
Qed.

(** C6 (amended).  With lists of equal length holding at least one array,
    when the image and every array entry convert and the matcher tasks can be
    launched, the entry point skips the entries that are no arrays and returns
    a list with one result per array entry: the single-matcher results of the
    accepted (template, threshold) pairs, in their order, numbered from 0. *)
Theorem cpp_multi_template_match_output image_array template_list threshold_list
    method w image mats :
  List.length template_list = List.length threshold_list ->
  pyarray_to_mat (Some image_array) = Normal image ->
  Forall2 (fun p m => pyarray_to_mat (Some (fst p)) = Normal m)
          (accepted_pairs template_list threshold_list) mats ->
  mats <> [] ->
  (forall n, async_launch_ok E n = true) ->
  let thresholds := map (fun p => threshold_of (snd p))
                        (accepted_pairs template_list threshold_list) in
  let results := match_each E image mats thresholds method in
  exists w',
    cpp_multi_template_match E image_array template_list threshold_list method w
    = (Normal (Some (PyList (map match_dict results))), w')
    /\ List.length results = List.length (filter PyArray_Check template_list).
Proof.
  intros Hlen Himage Hconv Hsome Hthreads thresholds results.
  assert (Hmats : List.length mats = List.length thresholds).
  { subst thresholds. rewrite length_map. symmetry.
    exact (Forall2_length Hconv). }
  assert (Hcount : List.length results
                   = List.length (filter PyArray_Check template_list)).
  { subst results. rewrite match_each_length by exact Hmats.
    rewrite <- (accepted_pairs_length template_list threshold_list Hlen).
    symmetry. exact (Forall2_length Hconv). }
  enough (exists w',
            cpp_multi_template_match E image_array template_list threshold_list
              method w = (Normal (Some (PyList (map match_dict results))), w'))
    as (w' & Hrun) by (exists w'; split; [exact Hrun | exact Hcount]).
  clear Hcount.
  unfold cpp_multi_template_match. run. rewrite Himage. cbn.
  rewrite Hlen, Nat.eqb_refl. cbn. rewrite <- Hlen.
  rewrite (for_index_nth2 (fun _ => translate_item) PyObject0 PyObject0
             template_list threshold_list Hlen).
  assert (Hc : List.length (combine template_list threshold_list)
               = List.length template_list)
    by (rewrite length_combine, <- Hlen; apply Nat.min_id).
  destruct (translate_loop (combine template_list threshold_list) mats 0
              (mk_cmtm_frame [] [] [] true) w Hconv) as (w1 & Hloop & _).
  rewrite Hc in Hloop. rewrite Hloop. cbn.
  destruct (multi_template_match_returns E Hthreads image mats thresholds
              method w1 Hmats) as (w2 & Hrun & _).
  fold (accepted_pairs template_list threshold_list). fold thresholds.
  destruct mats as [| m mats']; [contradiction |].
  rewrite Hrun. cbn. eexists. reflexivity.
Qed.

End MatchMany.

Lemma cpp_multi_template_match_size_mismatch_witness :
  exists w',
    cpp_multi_template_match (Env_peak 1 origin always) array22
      [obj_array array11] [] TM_CCOEFF_NORMED World0 = (Normal None, w')
    /\ trace w' = []
    /\ PyErr w'
       = Some (PyExc_ValueError,
               "Template and threshold lists must have the same size"%string).
Proof.
  destruct (cpp_multi_template_match_size_mismatch (Env_peak 1 origin always) array22
              [obj_array array11] [] TM_CCOEFF_NORMED World0)
    as (w' & Hrun & Ht & _ & He).
  - cbn. discriminate.
  - exists w'. split; [exact Hrun |]. split; [exact Ht | exact He].
Defined.

Lemma cpp_multi_template_match_no_valid_template_witness :
  exists w',
    cpp_multi_template_match (Env_peak 1 origin always) array22
      [obj_none; obj_float 1] [obj_float 0.5; obj_float 0.9] TM_CCOEFF_NORMED World0
    = (Normal None, w')
    /\ PyErr w' = Some (PyExc_ValueError, "No valid templates provided"%string).
Proof.
  destruct (cpp_multi_template_match_no_valid_template (Env_peak 1 origin always)
              array22 [obj_none; obj_float 1] [obj_float 0.5; obj_float 0.9]
              TM_CCOEFF_NORMED World0)
    as (w' & Hrun & _ & _ & He).
  - reflexivity.
  - repeat constructor.
  - exists w'. split; [exact Hrun | exact He].
Defined.

Lemma cpp_multi_template_match_output_witness :
  exists w',
    cpp_multi_template_match (Env_peak 1 origin always) array22
      [obj_none; obj_array array11; obj_array array11]
      [obj_float 0.5; obj_float 0.9; obj_none] TM_CCOEFF_NORMED World0
    = (Normal (Some (PyList
         [match_dict (mkMatchResult 1 origin 1 true 0);
          match_dict (mkMatchResult 1 origin 1 true 1)])), w').
Proof.
  destruct (cpp_multi_template_match_output (Env_peak 1 origin always) array22
              [obj_none; obj_array array11; obj_array array11]
              [obj_float 0.5; obj_float 0.9; obj_none] TM_CCOEFF_NORMED World0
              image22 [templ11; templ11])
    as (w' & Hrun & _).
  - reflexivity.
  - reflexivity.
  - repeat constructor.
  - discriminate.
  - reflexivity.
  - exists w'. exact Hrun.
Defined.

(** An array entry that cannot be converted (here a one-dimensional array) is
    not skipped: the whole call fails. *)
Example cpp_multi_template_match_unconvertible_entry :
  exists w',
    cpp_multi_template_match (Env_peak 1 origin always) array22
      [obj_array array11; obj_array array_1d] [obj_float 0.5; obj_float 0.5]
      TM_CCOEFF_NORMED World0 = (Normal None, w')
    /\ PyErr w'
       = Some (PyExc_RuntimeError,
               "Error in multi-template matching: Array must be 2D or 3D"%string)
    /\ trace w' = [].
Proof.
  eexists. repeat split; reflexivity.
Qed.

(** The claim as first written fails when every entry is invalid: the call
    returns NULL with an error pending, not a list of length 0. *)
Lemma cpp_multi_template_match_all_invalid_no_list :
  exists w',
    cpp_multi_template_match (Env_peak 1 origin always) array22
      [obj_none] [obj_float 0.5] TM_CCOEFF_NORMED World0 = (Normal None, w')
    /\ PyErr w' = Some (PyExc_ValueError, "No valid templates provided"%string).
Proof.
  eexists. split; reflexivity.
Qed.

(** * Further properties of the engine *)

(** ** Order of doubles *)

Lemma SFleb_trans x y z :
  SFleb x y = true -> SFleb y z = true -> SFleb x z = true.
Proof.
  unfold SFleb.
  destruct x as [sx | sx | | sx mx ex], y as [sy | sy | | sy my ey],
           z as [sz | sz | | sz mz ez]; cbn;
    try destruct sx; try destruct sy; try destruct sz; cbn; try congruence.
  all: destruct (Z.compare_spec ex ey), (Z.compare_spec ey ez); try congruence;
       destruct (Z.compare_spec ex ez); try congruence; try lia; subst.
  all: change (Pos.compare_cont Eq) with Pos.compare;
       destruct (Pos.compare_spec mx my), (Pos.compare_spec my mz); cbn;
       try congruence;
       destruct (Pos.compare_spec mx mz); cbn; try congruence; try lia.
Qed.

Lemma double_ge_trans (a b c : float) :
  double_ge a b = true -> double_ge b c = true -> double_ge a c = true.
Proof.
  unfold double_ge. rewrite !leb_spec. intros Hab Hbc.
  exact (SFleb_trans _ _ _ Hbc Hab).
Qed.

Lemma double_lt_irrefl (a : float) : double_lt a a = false.
Proof.
  unfold double_lt. rewrite ltb_spec. unfold SFltb.
  destruct (Prim2SF a) as [s | s | | s m e]; cbn; try destruct s; cbn;
    try reflexivity;
    rewrite Z.compare_refl; change (Pos.compare_cont Eq m m) with (Pos.compare m m);
    rewrite Pos.compare_refl; reflexivity.
Qed.

(** ** The single matcher *)

Section SingleMatcherMore.

Variable E : Env.

(** X1.  The single matcher never raises: it returns a record that carries
    the task identifier it was given and whose confidence is its maximum
    score, and it neither launches a task nor touches the pending Python
    error. *)
Theorem parallel_template_match_total image templ method threshold id w :
  exists r w',
    parallel_template_match E image templ method threshold id w = (Normal r, w')
    /\ template_id r = id
    /\ confidence r = max_val r
    /\ launched w' = launched w
    /\ PyErr w' = PyErr w.
Proof.
  destruct (parallel_template_match_returns E image templ method threshold id w)
    as (w' & Hrun & Hl & Hp).
  exists (matchOne E image templ method threshold id), w'.
  split; [exact Hrun |].
  destruct (correlated E image templ method) eqn:Hc.
  - destruct (matchOne_correlated E image templ method threshold id Hc)
      as (surface & mn & mx & lmn & lmx & _ & _ & ->).
    cbn. auto.
  - rewrite (matchOne_not_correlated E image templ method threshold id Hc).
    cbn. auto.
Qed.

(** X2.  The single matcher writes no log line when the correlation
    completes, and exactly one line otherwise (degenerate input or a
    primitive that raised). *)
Theorem parallel_template_match_log image templ method threshold id w :
  exists r w',
    parallel_template_match E image templ method threshold id w = (Normal r, w')
    /\ if correlated E image templ method
       then stdout w' = stdout w
       else exists line, stdout w' = stdout w ++ [line].
Proof.
  unfold correlated, parallel_template_match. run.
  destruct (Mat_empty image || Mat_empty templ); cbn.
  { eexists; eexists; split; [reflexivity | eexists; reflexivity]. }
  destruct ((rows templ >? rows image) || (cols templ >? cols image)); cbn.
  { eexists; eexists; split; [reflexivity | eexists; reflexivity]. }
  destruct (cv_matchTemplate E image templ method) as [surface | [msg | msg]]; cbn;
    try (eexists; eexists; split; [reflexivity | eexists; reflexivity]).
  destruct (cv_minMaxLoc E surface) as [[[[mn mx] lmn] lmx] | [msg | msg]]; cbn;
    eexists; eexists; (split; [reflexivity |]); try reflexivity;
    eexists; reflexivity.
Qed.

(** X3.  When the correlation completes, the single matcher has invoked
    matchTemplate once and then minMaxLoc once, on the surface matchTemplate
    returned, and nothing else; the record holds the maximum and its position
    as minMaxLoc gave them. *)
Theorem parallel_template_match_invocations image templ method threshold id w
    surface min_val max_val min_loc max_loc :
  Mat_empty image = false -> Mat_empty templ = false ->
  rows templ <= rows image -> cols templ <= cols image ->
  cv_matchTemplate E image templ method = Normal surface ->
  cv_minMaxLoc E surface = Normal (min_val, max_val, min_loc, max_loc) ->
  exists w',
    parallel_template_match E image templ method threshold id w
    = (Normal (mkMatchResult max_val max_loc max_val (double_ge max_val threshold) id),
       w')
    /\ trace w' = trace w ++ [EvSingleMatch id; EvMatchTemplate image templ method;
                              EvMinMaxLoc surface].
Proof.
  intros Hi Ht Hr Hc Hm Hl. unfold parallel_template_match. run.
  rewrite Hi, Ht. cbn.
  assert (Hfit : (rows templ >? rows image) || (cols templ >? cols image) = false).
  { apply orb_false_iff. rewrite !Z.gtb_ltb. split; apply Z.ltb_ge; assumption. }
  rewrite Hfit, Hm. cbn. rewrite Hl. cbn.
  eexists. split; [reflexivity |]. cbn. rewrite <- !app_assoc. reflexivity.
Qed.

(** X4.  When matchTemplate raises on a non-degenerate input, the single
    matcher returns the zero record, logs the message of the exception and
    does not invoke minMaxLoc. *)
Theorem parallel_template_match_primitive_raises image templ method threshold id w e :
  Mat_empty image = false -> Mat_empty templ = false ->
  rows templ <= rows image -> cols templ <= cols image ->
  cv_matchTemplate E image templ method = Throw e ->
  exists w',
    parallel_template_match E image templ method threshold id w
    = (Normal (mkMatchResult 0%float origin 0%float false id), w')
    /\ stdout w'
       = stdout w
         ++ [match e with
             | cv_Exception msg => "OpenCV error in template matching: " ++ msg
             | std_exception msg => "Error in template matching: " ++ msg
             end]%string
    /\ trace w' = trace w ++ [EvSingleMatch id; EvMatchTemplate image templ method].
Proof.
  intros Hi Ht Hr Hc Hm. unfold parallel_template_match. run.
  rewrite Hi, Ht. cbn.
  assert (Hfit : (rows templ >? rows image) || (cols templ >? cols image) = false).
  { apply orb_false_iff. rewrite !Z.gtb_ltb. split; apply Z.ltb_ge; assumption. }
  rewrite Hfit, Hm. cbn.
  destruct e; cbn; eexists; (split; [reflexivity |]); cbn;
    rewrite <- !app_assoc; split; reflexivity.
Qed.

(** X5.  Lowering the threshold never loses a match: a template found at a
    threshold is found at every threshold that is at most that one. *)
Theorem parallel_template_match_threshold_monotone image templ method
    threshold threshold' id w r w1 :
  double_ge threshold threshold' = true ->
  parallel_template_match E image templ method threshold id w = (Normal r, w1) ->
  found r = true ->
  exists r' w',
    parallel_template_match E image templ method threshold' id w = (Normal r', w')
    /\ found r' = true
    /\ max_val r' = max_val r /\ max_loc r' = max_loc r.
Proof.
  intros Hle Hrun Hfound.
  destruct (parallel_template_match_returns E image templ method threshold id w)
    as (w2 & Hrun2 & _).
  rewrite Hrun in Hrun2. injection Hrun2 as Hr _. subst r.
  destruct (parallel_template_match_returns E image templ method threshold' id w)
    as (w' & Hrun' & _).
  exists (matchOne E image templ method threshold' id), w'.
  split; [exact Hrun' |].
  destruct (correlated E image templ method) eqn:Hc.
  - destruct (matchOne_correlated E image templ method threshold id Hc)
      as (surface & mn & mx & lmn & lmx & Hm & Hl & Hone).
    destruct (matchOne_correlated E image templ method threshold' id Hc)
      as (surface' & mn' & mx' & lmn' & lmx' & Hm' & Hl' & Hone').
    rewrite Hm in Hm'. injection Hm' as <-.
    rewrite Hl in Hl'. injection Hl' as <- <- <- <-.
    rewrite Hone in *. rewrite Hone'. cbn in *.
    split; [| split; reflexivity].
    exact (double_ge_trans _ _ _ Hfound Hle).
  - rewrite (matchOne_not_correlated E image templ method threshold id Hc) in Hfound.
    discriminate.
Qed.

End SingleMatcherMore.

Lemma parallel_template_match_invocations_witness :
  exists w',
    parallel_template_match (Env_peak 0.9%float (mkPoint 1 0) always) image22 templ11
      TM_CCOEFF_NORMED 0.8%float 3 World0
    = (Normal (mkMatchResult 0.9%float (mkPoint 1 0) 0.9%float true 3), w')
    /\ trace w' = [EvSingleMatch 3; EvMatchTemplate image22 templ11 TM_CCOEFF_NORMED;
                   EvMinMaxLoc (mkScoreMat 1 1 [0.9%float])].
Proof.
  apply (parallel_template_match_invocations (Env_peak 0.9%float (mkPoint 1 0) always)
           image22 templ11 TM_CCOEFF_NORMED 0.8%float 3 World0
           (mkScoreMat 1 1 [0.9%float]) 0.9%float 0.9%float (mkPoint 1 0) (mkPoint 1 0));
    try reflexivity; cbn; lia.
Defined.

Lemma parallel_template_match_primitive_raises_witness :
  exists w',
    parallel_template_match Env_no_match image22 templ11 TM_CCOEFF_NORMED 0.8%float 3
      World0
    = (Normal (mkMatchResult 0%float origin 0%float false 3), w')
    /\ stdout w' = ["OpenCV error in template matching: depth mismatch"%string]
    /\ trace w' = [EvSingleMatch 3; EvMatchTemplate image22 templ11 TM_CCOEFF_NORMED].
Proof.
  apply (parallel_template_match_primitive_raises Env_no_match image22 templ11
           TM_CCOEFF_NORMED 0.8%float 3 World0 (cv_Exception "depth mismatch"));
    try reflexivity; cbn; lia.
Defined.

Lemma parallel_template_match_threshold_monotone_witness :
  exists r' w',
    parallel_template_match (Env_peak 0.9%float (mkPoint 1 0) always) image22 templ11
      TM_CCOEFF_NORMED 0.5%float 3 World0 = (Normal r', w')
    /\ found r' = true.
Proof.
  destruct (parallel_template_match_threshold_monotone
              (Env_peak 0.9%float (mkPoint 1 0) always) image22 templ11
              TM_CCOEFF_NORMED 0.8%float 0.5%float 3 World0
              (mkMatchResult 0.9%float (mkPoint 1 0) 0.9%float true 3)
              (world (parallel_template_match (Env_peak 0.9%float (mkPoint 1 0) always)
                        image22 templ11 TM_CCOEFF_NORMED 0.8%float 3 World0)))
    as (r' & w' & Hrun & Hfound & _).
  - reflexivity.
  - reflexivity.
  - reflexivity.
  - exists r', w'. split; assumption.
Defined.

(** ** Conversion of NumPy arrays *)

(** X6.  [pyarray_to_mat] accepts exactly the two-dimensional arrays and the
    three-dimensional arrays whose last axis has 1, 3 or 4 entries; the matrix
    takes its height, width and channel count from the shape, so it has 1, 3
    or 4 channels.  Any other array raises, with the message of the failed
    test. *)
Theorem pyarray_to_mat_accepts (a : PyArrayObject) :
  let ndim := List.length (shape a) in
  match pyarray_to_mat (Some a) with
  | Normal m =>
      (ndim = 2%nat \/ ndim = 3%nat)
      /\ rows m = int_wrap (nth 0 (shape a) 0)
      /\ cols m = int_wrap (nth 1 (shape a) 0)
      /\ channels m = (if (ndim =? 3)%nat then int_wrap (nth 2 (shape a) 0) else 1)
      /\ (channels m = 1 \/ channels m = 3 \/ channels m = 4)
  | Throw e =>
      (e = std_exception "Array must be 2D or 3D" /\ ndim <> 2%nat /\ ndim <> 3%nat)
      \/ (e = std_exception "Unsupported number of channels" /\ ndim = 3%nat
          /\ int_wrap (nth 2 (shape a) 0) <> 1
          /\ int_wrap (nth 2 (shape a) 0) <> 3
          /\ int_wrap (nth 2 (shape a) 0) <> 4)
  end.
Proof.
  intros ndim. unfold pyarray_to_mat. fold ndim.
  destruct ((Z.of_nat ndim <? 2) || (Z.of_nat ndim >? 3)) eqn:Hdim.
  - left. split; [reflexivity |].
    apply orb_true_iff in Hdim. rewrite Z.gtb_ltb in Hdim.
    destruct Hdim as [H | H]; apply Z.ltb_lt in H; lia.
  - apply orb_false_iff in Hdim. rewrite Z.gtb_ltb in Hdim.
    destruct Hdim as [H2 H3]. apply Z.ltb_ge in H2. apply Z.ltb_ge in H3.
    assert (Hnd : ndim = 2%nat \/ ndim = 3%nat) by lia.
    assert (Hc3 : (Z.of_nat ndim =? 3) = (ndim =? 3)%nat).
    { destruct Hnd as [-> | ->]; reflexivity. }
    rewrite Hc3.
    set (c := if (ndim =? 3)%nat then int_wrap (nth 2 (shape a) 0) else 1).
    destruct ((c =? 1) || (c =? 3) || (c =? 4)) eqn:Hc.
    + cbn. repeat split; try assumption.
      apply orb_true_iff in Hc. destruct Hc as [Hc | Hc];
        [apply orb_true_iff in Hc; destruct Hc as [Hc | Hc] |];
        apply Z.eqb_eq in Hc; auto.
    + right. apply orb_false_iff in Hc. destruct Hc as [Hc H4].
      apply orb_false_iff in Hc. destruct Hc as [H1 H3'].
      apply Z.eqb_neq in H1, H3', H4. subst c.
      destruct (ndim =? 3)%nat eqn:Hn; [| congruence].
      apply Nat.eqb_eq in Hn. auto.
Qed.

Lemma chunk_exact (n : nat) :
  (0 < n)%nat ->
  forall k l fuel,
    List.length l = (k * n)%nat -> (k <= fuel)%nat ->
    List.length (chunk fuel n l) = k
    /\ Forall (fun px => List.length px = n) (chunk fuel n l)
    /\ List.concat (chunk fuel n l) = l.
Proof.
  intros Hn. induction k as [| k IH]; intros l fuel Hlen Hfuel.
  - destruct l; [| discriminate]. destruct fuel; cbn; auto.
  - destruct fuel as [| fuel]; [lia |].
    destruct l as [| a l'] eqn:El; [cbn in Hlen; lia |].
    cbn [chunk]. rewrite <- El in *.
    assert (Hskip : List.length (skipn n l) = (k * n)%nat)
      by (rewrite length_skipn, Hlen; cbn; lia).
    destruct (IH (skipn n l) fuel Hskip ltac:(lia)) as (Hk & Hall & Hcat).
    cbn [List.length List.concat]. rewrite Hk, Hcat, firstn_skipn.
    split; [reflexivity |]. split; [| reflexivity].
    constructor; [| exact Hall].
    rewrite length_firstn, Hlen. cbn. lia.
Qed.

(** X7.  For an array of height [h], width [w] and [c] channels that holds
    [h * w * c] elements, [pyarray_to_mat] builds a matrix with one pixel per
    position and [c] values per pixel, and the pixels read in order give back
    the elements of the array: the copy loses and reorders nothing. *)
Theorem pyarray_to_mat_data (a : PyArrayObject) (h w c : Z) :
  (shape a = [h; w] /\ c = 1) \/ shape a = [h; w; c] ->
  0 <= h <= INT_MAX -> 0 <= w <= INT_MAX ->
  c = 1 \/ c = 3 \/ c = 4 ->
  Z.of_nat (List.length (elements a)) = h * w * c ->
  exists m,
    pyarray_to_mat (Some a) = Normal m
    /\ rows m = h /\ cols m = w /\ channels m = c
    /\ Mat_wf m
    /\ List.concat (data m) = elements a.
Proof.
  intros Hshape Hh Hw Hc Hlen.
  assert (Hch : 0 < c <= INT_MAX) by (unfold INT_MAX; lia).
  assert (Hcount : List.length (elements a) = (Z.to_nat (h * w) * Z.to_nat c)%nat).
  { apply Nat2Z.inj. rewrite Hlen, Nat2Z.inj_mul, !Z2Nat.id; nia. }
  destruct (chunk_exact (Z.to_nat c) ltac:(lia) (Z.to_nat (h * w)) (elements a)
              (List.length (elements a)) Hcount ltac:(nia)) as (Hk & Hall & Hcat).
  assert (Hrun : pyarray_to_mat (Some a)
                 = Normal (mkMat h w c
                     (firstn (Z.to_nat (h * w))
                        (chunk (List.length (elements a)) (Z.to_nat c) (elements a))))).
  { unfold pyarray_to_mat.
    destruct Hshape as [[-> ->] | ->]; cbn [List.length nth Z.of_nat].
    - cbn. rewrite !int_wrap_small by (unfold INT_MAX in *; lia). reflexivity.
    - cbn -[int_wrap]. rewrite !int_wrap_small by (unfold INT_MAX in *; lia).
      destruct Hc as [-> | [-> | ->]]; reflexivity. }
  rewrite firstn_all2 in Hrun by lia.
  eexists. split; [exact Hrun |]. unfold Mat_wf. cbn.
  repeat split; try lia; try assumption.
Qed.

Lemma pyarray_to_mat_data_witness :
  exists m,
    pyarray_to_mat (Some array_shot) = Normal m
    /\ rows m = 2 /\ cols m = 2 /\ channels m = 3
    /\ Mat_wf m
    /\ List.concat (data m) = elements array_shot.
Proof.
  apply (pyarray_to_mat_data array_shot 2 2 3); unfold INT_MAX; cbn; try lia.
  right. reflexivity.
Defined.

(** ** The health analyzer *)

Section HealthAnalyzerMore.

Variable E : Env.

Lemma parallel_template_match_trace image templ method threshold id w :
  exists w' evs,
    parallel_template_match E image templ method threshold id w
      = (Normal (matchOne E image templ method threshold id), w')
    /\ trace w' = trace w ++ evs
    /\ forallb (fun ev => negb (is_conversion ev)) evs = true
    /\ launched w' = launched w /\ PyErr w' = PyErr w.
Proof.
  unfold matchOne, value, parallel_template_match. run.
  destruct (Mat_empty image || Mat_empty templ); cbn.
  { eexists; eexists; repeat split; reflexivity. }
  destruct ((rows templ >? rows image) || (cols templ >? cols image)); cbn.
  { eexists; eexists; repeat split; reflexivity. }
  destruct (cv_matchTemplate E image templ method) as [surface | [msg | msg]]; cbn;
    try (eexists; eexists; split; [reflexivity |]; cbn; rewrite <- !app_assoc;
         repeat split; reflexivity).
  destruct (cv_minMaxLoc E surface) as [[[[mn mx] lmn] lmx] | [msg | msg]]; cbn;
    eexists; eexists; (split; [reflexivity |]); cbn; rewrite <- !app_assoc;
    repeat split; reflexivity.
Qed.

Lemma std_async_match_trace {S} image templ method threshold id (s : S) w :
  async_launch_ok E (launched w) = true ->
  exists w' evs,
    std_async E (parallel_template_match E image templ method threshold id) s w
      = (Normal (Normal (matchOne E image templ method threshold id)), s, w')
    /\ trace w' = trace w ++ evs
    /\ forallb (fun ev => negb (is_conversion ev)) evs = true
    /\ launched w' = Datatypes.S (launched w) /\ PyErr w' = PyErr w.
Proof.
  intros Hok. unfold std_async. rewrite Hok.
  destruct (parallel_template_match_trace image templ method threshold id
              (mkWorld (stdout w) (trace w) (Datatypes.S (launched w)) (PyErr w)))
    as (w' & evs & -> & Ht & Hev & Hl & Hp).
  exists w', evs. cbn in Ht, Hl, Hp. auto.
Qed.

(** The world the health analyzer leaves: the pending Python error is
    untouched, and the only colour conversion in the trace is the one of the
    analysed region, at its end. *)
Lemma detect_health_parallel_world screenshot bar empty health_threshold w :
  exists w' evs,
    detect_health_parallel E screenshot bar empty health_threshold w
    = (Normal (analyzeHealth E screenshot bar empty health_threshold w), w')
    /\ PyErr w' = PyErr w
    /\ forallb (fun ev => negb (is_conversion ev)) evs = true
    /\ trace w'
       = trace w ++ evs
         ++ match analysed_region E screenshot bar empty w with
            | Some region => [EvCvtColor region COLOR_BGR2HSV]
            | None => []
            end.
Proof.
  unfold detect_health_parallel, analyzeHealth, analysed_region, matches_collected.
  run.
  destruct (Mat_empty screenshot || Mat_empty bar || Mat_empty empty); cbn.
  { eexists; exists []; repeat split; cbn; rewrite ?app_nil_r; reflexivity. }
  destruct (async_launch_ok E (launched w)) eqn:Hl1; cbn.
  2:{ rewrite std_async_no_thread by exact Hl1. cbn.
      eexists; exists []; repeat split; cbn; rewrite ?app_nil_r; reflexivity. }
  destruct (std_async_match_trace screenshot bar TM_CCOEFF_NORMED
              0.7%float 0 (mkHealthResult 0%float false false origin false) w Hl1)
    as (w1 & evs1 & -> & Ht1 & Hev1 & Hw1 & Hp1).
  destruct (async_launch_ok E (Datatypes.S (launched w))) eqn:Hl2; cbn.
  2:{ rewrite std_async_no_thread by (rewrite Hw1; exact Hl2). cbn.
      eexists; exists evs1; repeat split; cbn; rewrite ?app_nil_r; assumption. }
  rewrite <- Hw1 in Hl2.
  destruct (std_async_match_trace screenshot empty TM_CCOEFF_NORMED
              0.8%float 1 (mkHealthResult 0%float false false origin false) w1 Hl2)
    as (w2 & evs2 & -> & Ht2 & Hev2 & _ & Hp2).
  assert (Hev : forallb (fun ev => negb (is_conversion ev)) (evs1 ++ evs2) = true)
    by (rewrite forallb_app, Hev1, Hev2; reflexivity).
  assert (Ht : trace w2 = trace w ++ evs1 ++ evs2)
    by (rewrite Ht2, Ht1, app_assoc; reflexivity).
  assert (Hp : PyErr w2 = PyErr w) by congruence.
  destruct (found (matchOne E screenshot bar TM_CCOEFF_NORMED 0.7%float 0)) eqn:Hf;
    cbn.
  2:{ eexists; exists (evs1 ++ evs2); repeat split; cbn; rewrite ?app_nil_r;
      assumption. }
  destruct ((Rect_width (health_roi screenshot bar
               (max_loc (matchOne E screenshot bar TM_CCOEFF_NORMED 0.7%float 0))) >? 0)
            && (Rect_height (health_roi screenshot bar
               (max_loc (matchOne E screenshot bar TM_CCOEFF_NORMED 0.7%float 0))) >? 0))
    eqn:Hroi; cbn.
  2:{ eexists; exists (evs1 ++ evs2); repeat split; cbn; rewrite ?app_nil_r;
      assumption. }
  destruct (health_roi_inside screenshot bar _ Hroi) as (region & -> & _ & _).
  destruct (cv_cvtColor E region COLOR_BGR2HSV) as [hsv | e] eqn:Hcvt.
  - rewrite (analyze_health_color_normal E region hsv _ _ Hcvt). cbn.
    eexists; exists (evs1 ++ evs2). split; [reflexivity |]. cbn.
    split; [exact Hp |]. split; [exact Hev |].
    rewrite Ht, <- !app_assoc. reflexivity.
  - rewrite (analyze_health_color_throw E region e _ _ Hcvt). cbn.
    destruct e; eexists; exists (evs1 ++ evs2); (split; [reflexivity |]); cbn;
      (split; [exact Hp |]); (split; [exact Hev |]);
      rewrite Ht, <- !app_assoc; reflexivity.
Qed.

(** X8.  The region of interest after clipping starts at non-negative
    coordinates, is no larger than the bar template and ends inside the
    screenshot; when the template fits into the screenshot at the match
    location, clipping changes nothing. *)
Theorem health_roi_clipped screenshot templ loc :
  let roi := health_roi screenshot templ loc in
  0 <= Rect_x roi /\ 0 <= Rect_y roi
  /\ Rect_width roi <= cols templ /\ Rect_height roi <= rows templ
  /\ Rect_x roi + Rect_width roi <= cols screenshot
  /\ Rect_y roi + Rect_height roi <= rows screenshot
  /\ (0 <= Point_x loc -> Point_x loc + cols templ <= cols screenshot ->
      0 <= Point_y loc -> Point_y loc + rows templ <= rows screenshot ->
      roi = mkRect (Point_x loc) (Point_y loc) (cols templ) (rows templ)).
Proof.
  unfold health_roi. cbn.
  repeat split; try lia.
  intros Hx Hw Hy Hh.
  rewrite !Z.max_r by lia. rewrite !Z.min_l by lia. reflexivity.
Qed.

(** X9.  When the bar is found at a location at or beyond the right or the
    bottom edge of the screenshot, the clipped region is empty: the analyzer
    invokes no colour conversion, and returns healthFraction = 0 with isEmpty
    set, barFound set and isCritical = (0 < healthThreshold). *)
Theorem detect_health_parallel_region_outside screenshot bar empty health_threshold w :
  let health_bar_result :=
    matchOne E screenshot bar TM_CCOEFF_NORMED 0.7%float 0 in
  matches_collected E screenshot bar empty w = true ->
  found health_bar_result = true ->
  cols screenshot <= Point_x (max_loc health_bar_result)
  \/ rows screenshot <= Point_y (max_loc health_bar_result) ->
  exists r w' evs,
    detect_health_parallel E screenshot bar empty health_threshold w = (Normal r, w')
    /\ health_percentage r = 0%float
    /\ is_empty r = true
    /\ is_critical r = double_lt 0 health_threshold
    /\ health_bar_found r = true
    /\ trace w' = trace w ++ evs
    /\ forallb (fun ev => negb (is_conversion ev)) evs = true.
Proof.
  intros health_bar_result Hcoll Hfound Hout.
  assert (Hnone : analysed_region E screenshot bar empty w = None).
  { unfold analysed_region. rewrite Hcoll. fold health_bar_result. rewrite Hfound.
    assert (Hroi : (Rect_width (health_roi screenshot bar (max_loc health_bar_result))
                    >? 0)
                   && (Rect_height (health_roi screenshot bar
                                      (max_loc health_bar_result)) >? 0) = false).
    { apply andb_false_iff. rewrite !Z.gtb_ltb. unfold health_roi. cbn.
      destruct Hout as [Hx | Hy]; [left | right]; apply Z.ltb_ge; lia. }
    rewrite Hroi. reflexivity. }
  destruct (detect_health_parallel_world screenshot bar empty health_threshold w)
    as (w' & evs & Hrun & _ & Hev & Ht).
  rewrite Hnone, app_nil_r in Ht.
  eexists; exists w', evs. split; [exact Hrun |].
  unfold analyzeHealth. rewrite Hcoll, Hnone. fold health_bar_result.
  cbn [health_percentage is_empty is_critical health_bar_found].
  change (double_lt 0 0.05%float) with true. rewrite Hfound, orb_true_r.
  repeat split; try reflexivity; assumption.
Qed.

(** X10.  When the two matches were collected and the bar is not found, the
    analyzer invokes no colour conversion and reports empty health:
    healthFraction = 0, isEmpty set, isCritical = (0 < healthThreshold). *)
Theorem detect_health_parallel_bar_not_found screenshot bar empty health_threshold w :
  matches_collected E screenshot bar empty w = true ->
  found (matchOne E screenshot bar TM_CCOEFF_NORMED 0.7%float 0) = false ->
  exists r w' evs,
    detect_health_parallel E screenshot bar empty health_threshold w = (Normal r, w')
    /\ health_percentage r = 0%float
    /\ is_empty r = true
    /\ is_critical r = double_lt 0 health_threshold
    /\ health_bar_found r = false
    /\ trace w' = trace w ++ evs
    /\ forallb (fun ev => negb (is_conversion ev)) evs = true.
Proof.
  intros Hcoll Hfound.
  assert (Hnone : analysed_region E screenshot bar empty w = None).
  { unfold analysed_region. rewrite Hcoll, Hfound. reflexivity. }
  destruct (detect_health_parallel_world screenshot bar empty health_threshold w)
    as (w' & evs & Hrun & _ & Hev & Ht).
  rewrite Hnone, app_nil_r in Ht.
  eexists; exists w', evs. split; [exact Hrun |].
  unfold analyzeHealth. rewrite Hcoll, Hnone.
  cbn [health_percentage is_empty is_critical health_bar_found].
  change (double_lt 0 0.05%float) with true. rewrite Hfound, orb_true_r.
  repeat split; try reflexivity; assumption.
Qed.

(** X11.  isCritical is a strict comparison: a result whose healthFraction
    equals the threshold it was computed with is not critical. *)
Theorem detect_health_parallel_critical_strict screenshot bar empty health_threshold
    w r w' :
  detect_health_parallel E screenshot bar empty health_threshold w = (Normal r, w') ->
  health_percentage r = health_threshold ->
  is_critical r = false.
Proof.
  intros Hrun Heq.
  destruct (detect_health_parallel_returns E screenshot bar empty health_threshold w)
    as (w2 & Hrun2).
  rewrite Hrun in Hrun2. injection Hrun2 as Hr _. subst r.
  revert Heq. unfold analyzeHealth.
  destruct (matches_collected E screenshot bar empty w); cbn; [| reflexivity].
  destruct (analysed_region E screenshot bar empty w) as [region |]; cbn.
  - destruct (cv_cvtColor E region COLOR_BGR2HSV); cbn; [| reflexivity].
    intros ->. apply double_lt_irrefl.
  - intros <-. apply double_lt_irrefl.
Qed.

(** X12.  When the colour conversion raises, the analyzer still returns: the
    result keeps barFound and the match location, with healthFraction = 0 and
    both flags false, and the pending Python error is untouched. *)
Theorem detect_health_parallel_conversion_raises screenshot bar empty health_threshold
    w region e :
  analysed_region E screenshot bar empty w = Some region ->
  cv_cvtColor E region COLOR_BGR2HSV = Throw e ->
  exists w',
    detect_health_parallel E screenshot bar empty health_threshold w
    = (Normal (mkHealthResult 0%float false false
                 (max_loc (matchOne E screenshot bar TM_CCOEFF_NORMED 0.7%float 0))
                 true), w')
    /\ PyErr w' = PyErr w.
Proof.
  intros Hregion Hcvt.
  destruct (detect_health_parallel_world screenshot bar empty health_threshold w)
    as (w' & evs & Hrun & Hp & _ & _).
  exists w'. split; [| exact Hp]. rewrite Hrun. f_equal. f_equal.
  destruct (analysed_region_positive E _ _ _ _ _ Hregion) as (Hcoll & _).
  unfold analyzeHealth. rewrite Hcoll, Hregion, Hcvt.
  assert (Hfound : found (matchOne E screenshot bar TM_CCOEFF_NORMED 0.7%float 0) = true).
  { revert Hregion. unfold analysed_region. rewrite Hcoll.
    destruct (found _); [reflexivity | discriminate]. }
  rewrite Hfound. reflexivity.
Qed.

End HealthAnalyzerMore.

Lemma health_roi_clipped_witness :
  health_roi shot_a bar12 origin = mkRect 0 0 2 1.
Proof.
  destruct (health_roi_clipped shot_a bar12 origin) as (_ & _ & _ & _ & _ & _ & Hfit).
  apply Hfit; unfold origin, shot_a, bar12; cbn; lia.
Defined.

Lemma detect_health_parallel_region_outside_witness :
  exists r w',
    detect_health_parallel (Env_peak 1 (mkPoint 2 0) always) shot_a bar12 pix111
      0.3%float World0 = (Normal r, w')
    /\ health_percentage r = 0%float /\ is_empty r = true /\ health_bar_found r = true.
Proof.
  destruct (detect_health_parallel_region_outside (Env_peak 1 (mkPoint 2 0) always)
              shot_a bar12 pix111 0.3%float World0)
    as (r & w' & evs & Hrun & Hhp & Hemp & _ & Hbar & _).
  - reflexivity.
  - reflexivity.
  - left. vm_compute. discriminate.
  - exists r, w'. auto.
Defined.

Lemma detect_health_parallel_bar_not_found_witness :
  exists r w',
    detect_health_parallel (Env_peak 0.5%float origin always) shot_a bar12 pix111
      0.3%float World0 = (Normal r, w')
    /\ health_percentage r = 0%float /\ is_empty r = true /\ health_bar_found r = false.
Proof.
  destruct (detect_health_parallel_bar_not_found (Env_peak 0.5%float origin always)
              shot_a bar12 pix111 0.3%float World0)
    as (r & w' & evs & Hrun & Hhp & Hemp & _ & Hbar & _).
  - reflexivity.
  - reflexivity.
  - exists r, w'. auto.
Defined.

Lemma detect_health_parallel_critical_strict_witness :
  exists r w',
    detect_health_parallel (Env_peak 1 origin always) shot_a bar12 pix111
      0.5%float World0 = (Normal r, w')
    /\ health_percentage r = 0.5%float
    /\ is_critical r = false.
Proof.
  eexists; eexists. split; [reflexivity |]. split; [reflexivity |].
  apply (detect_health_parallel_critical_strict (Env_peak 1 origin always)
           shot_a bar12 pix111 0.5%float World0 _
           (world (detect_health_parallel (Env_peak 1 origin always) shot_a bar12
                     pix111 0.5%float World0)));
    reflexivity.
Defined.

Lemma detect_health_parallel_conversion_raises_witness :
  exists w',
    detect_health_parallel (Env_no_hsv 1 (mkPoint 0 1)) shot_a bar12 pix111
      0.3%float World0
    = (Normal (mkHealthResult 0%float false false (mkPoint 0 1) true), w')
    /\ PyErr w' = None.
Proof.
  apply (detect_health_parallel_conversion_raises (Env_no_hsv 1 (mkPoint 0 1))
           shot_a bar12 pix111 0.3%float World0
           (mkMat 1 2 3 [[175; 130; 80]; [0; 0; 0]])
           (cv_Exception "Invalid number of channels"));
    reflexivity.
Defined.

(** ** The multi-template matcher *)

Section MultiTemplateMatcherMore.

Variable E : Env.

(** X13.  With threads at hand, the C++ matcher returns one result per
    template, and the result at each index is what the single matcher gives
    for the template and the threshold at that index, with the index as task
    identifier: a result does not depend on the other pairs. *)
Theorem multi_template_match_results image templates thresholds method w :
  List.length templates = List.length thresholds ->
  (forall n, async_launch_ok E n = true) ->
  exists results w',
    multi_template_match E image templates thresholds method w = (Normal results, w')
    /\ List.length results = List.length templates
    /\ forall i, (i < List.length templates)%nat ->
         nth i results error_result
         = matchOne E image (nth i templates Mat0) method (nth i thresholds 0%float)
             (int_wrap (Z.of_nat i)).
Proof.
  intros Hlen Hthreads.
  destruct (multi_template_match_returns E Hthreads image templates thresholds
              method w Hlen) as (w' & Hrun & _).
  exists (match_each E image templates thresholds method), w'.
  split; [exact Hrun |].
  split; [apply match_each_length; exact Hlen |].
  intros i Hi. unfold match_each.
  set (f := fun p : nat * (Mat * float) =>
              matchOne E image (fst (snd p)) method (snd (snd p))
                (int_wrap (Z.of_nat (fst p)))).
  assert (Hc : List.length (combine templates thresholds) = List.length templates)
    by (rewrite length_combine, <- Hlen; apply Nat.min_id).
  rewrite (nth_indep _ error_result (f (O, (Mat0, 0%float)))).
  2:{ rewrite length_map, length_combine, length_seq, Hc, Nat.min_id. exact Hi. }
  rewrite map_nth.
  rewrite combine_nth by (rewrite length_seq, Hc; reflexivity).
  rewrite combine_nth by exact Hlen.
  rewrite seq_nth by exact Hi. reflexivity.
Qed.

(** The translation loop raises at the first array entry that does not
    convert. *)
Lemma translate_loop_fails (pairs : list (PyObject * PyObject)) :
  forall good bad th rest mats e k fr w,
    flat_map keep_pair pairs = good ++ (bad, th) :: rest ->
    Forall2 (fun p m => pyarray_to_mat (Some (fst p)) = Normal m) good mats ->
    pyarray_to_mat (Some bad) = Throw e ->
    exists fr' w',
      for_each (combine (seq k (List.length pairs)) pairs)
        (fun p => translate_item (fst (snd p)) (snd (snd p))) fr w
      = (Throw e, fr', w')
      /\ stdout w' = stdout w /\ trace w' = trace w /\ launched w' = launched w
      /\ cmtm_gil fr' = cmtm_gil fr.
Proof.
  induction pairs as [| [template_item threshold_item] pairs IH];
    intros good bad th rest mats e k fr w Hsplit Hgood Hbad.
  - cbn in Hsplit. destruct good; discriminate.
  - cbn [List.length seq combine for_each fst snd flat_map] in *.
    unfold keep_pair at 1 in Hsplit. cbn [fst snd] in Hsplit.
    unfold bind at 1. unfold translate_item at 1.
    destruct (as_array template_item) as [arr |].
    + cbn [app] in Hsplit. destruct good as [| g good'].
      * cbn [app] in Hsplit. injection Hsplit as -> -> Hrest.
        run. rewrite Hbad. eexists; eexists; repeat split; reflexivity.
      * cbn [app] in Hsplit. injection Hsplit as <- Hrest.
        inversion Hgood as [| ? m ? mats' Hm Hgood']; subst. cbn [fst] in Hm.
        run. rewrite Hm. unfold PyFloat_AsDouble.
        destruct (as_double threshold_item); run;
          match goal with
          | |- context [for_each _ _ ?fr1 ?w1] =>
              destruct (IH good' bad th rest mats' e (Datatypes.S k) fr1 w1
                          Hrest Hgood' Hbad)
                as (fr2 & w2 & Hloop & Hs & Ht & Hl & Hg)
          end;
          rewrite Hloop; cbn in Hs, Ht, Hl, Hg; eexists; eexists; repeat split;
          assumption.
    + cbn [app] in Hsplit. unfold ret at 1.
      exact (IH good bad th rest mats e (Datatypes.S k) fr w Hsplit Hgood Hbad).
Qed.

(** X15.  An array entry that does not convert to an image is not skipped:
    the first such entry fails the whole call, which returns NULL with a
    RuntimeError carrying the message of the conversion, and matches
    nothing. *)
Theorem cpp_multi_template_match_unconvertible image_array template_list
    threshold_list method w image good bad th rest mats e :
  List.length template_list = List.length threshold_list ->
  pyarray_to_mat (Some image_array) = Normal image ->
  accepted_pairs template_list threshold_list = good ++ (bad, th) :: rest ->
  Forall2 (fun p m => pyarray_to_mat (Some (fst p)) = Normal m) good mats ->
  pyarray_to_mat (Some bad) = Throw e ->
  exists w',
    cpp_multi_template_match E image_array template_list threshold_list method w
    = (Normal None, w')
    /\ PyErr w'
       = Some (PyExc_RuntimeError,
               ("Error in multi-template matching: " ++ what e)%string)
    /\ trace w' = trace w
    /\ launched w' = launched w.
Proof.
  intros Hlen Himage Hsplit Hgood Hbad.
  unfold cpp_multi_template_match. run. rewrite Himage. cbn.
  rewrite Hlen, Nat.eqb_refl. cbn. rewrite <- Hlen.
  rewrite (for_index_nth2 (fun _ => translate_item) PyObject0 PyObject0
             template_list threshold_list Hlen).
  assert (Hc : List.length (combine template_list threshold_list)
               = List.length template_list)
    by (rewrite length_combine, <- Hlen; apply Nat.min_id).
  destruct (translate_loop_fails (combine template_list threshold_list)
              good bad th rest mats e 0 (mk_cmtm_frame [] [] [] true) w Hsplit Hgood Hbad)
    as (fr1 & w1 & Hloop & Hs & Ht & Hl & Hg).
  rewrite Hc in Hloop. rewrite Hloop. cbn in Hg |- *. rewrite Hg.
  eexists. split; [reflexivity |]. cbn. auto.
Qed.

End MultiTemplateMatcherMore.

Lemma multi_template_match_results_witness :
  exists results w',
    multi_template_match (Env_peak 0.75%float origin always) image22
      [templ11; templ11] [0.5%float; 0.9%float] TM_CCOEFF_NORMED World0
    = (Normal results, w')
    /\ List.length results = 2%nat
    /\ nth 1 results error_result
       = mkMatchResult 0.75%float origin 0.75%float false 1.
Proof.
  destruct (multi_template_match_results (Env_peak 0.75%float origin always) image22
              [templ11; templ11] [0.5%float; 0.9%float] TM_CCOEFF_NORMED World0)
    as (results & w' & Hrun & Hlen & Hnth).
  - reflexivity.
  - reflexivity.
  - exists results, w'. split; [exact Hrun |]. split; [exact Hlen |].
    rewrite (Hnth 1%nat) by (cbn; lia). reflexivity.
Defined.

Lemma cpp_multi_template_match_unconvertible_witness :
  exists w',
    cpp_multi_template_match (Env_peak 1 origin always) array22
      [obj_array array11; obj_none; obj_array array_1d; obj_array array11]
      [obj_float 0.5; obj_float 0.5; obj_float 0.5; obj_float 0.5]
      TM_CCOEFF_NORMED World0 = (Normal None, w')
    /\ PyErr w'
       = Some (PyExc_RuntimeError,
               "Error in multi-template matching: Array must be 2D or 3D"%string)
    /\ trace w' = [].
Proof.
  destruct (cpp_multi_template_match_unconvertible (Env_peak 1 origin always) array22
              [obj_array array11; obj_none; obj_array array_1d; obj_array array11]
              [obj_float 0.5; obj_float 0.5; obj_float 0.5; obj_float 0.5]
              TM_CCOEFF_NORMED World0 image22
              [(array11, obj_float 0.5)] array_1d (obj_float 0.5)
              [(array11, obj_float 0.5)] [templ11]
              (std_exception "Array must be 2D or 3D"))
    as (w' & Hrun & He & Ht & _).
  - reflexivity.
  - reflexivity.
  - reflexivity.
  - repeat constructor.
  - reflexivity.
  - exists w'. auto.
Defined.


(** ** The health entry point and the benchmark *)

Section EntryPointsMore.

Variable E : Env.
Variable health_line : HealthResult -> string.
Variable benchmark_line : Z -> float -> string.



Lemma benchmark_loop image templ surface mm n :
  cv_matchTemplate E image templ TM_CCOEFF_NORMED = Normal surface ->
  cv_minMaxLoc E surface = Normal mm ->
  forall k (total_time : float) w,
    for_each (seq k n) (fun _ => benchmark_iteration E image templ) total_time w
    = (Normal tt, total_time,
       mkWorld (stdout w) (trace w ++ benchmark_events n image templ surface)
               (launched w) (PyErr w)).
Proof.
  intros Hm Hl. induction n as [| n IH]; intros k total_time w.
  - cbn. rewrite app_nil_r. destruct w. reflexivity.
  - cbn [seq for_each benchmark_events]. unfold bind at 1.
    unfold benchmark_iteration at 1. run. rewrite Hm. cbn. rewrite Hl. cbn.
    rewrite IH. cbn. rewrite <- !app_assoc. reflexivity.
Qed.



End EntryPointsMore.





(** ** The entry points that release the GIL *)

Section MatchManyGIL.

Variable E : Env.

(** When the first launch finds no thread, the C++ matcher raises. *)
Lemma multi_template_match_no_thread image template_img templates thresholds method w :
  List.length (template_img :: templates) = List.length thresholds ->
  async_launch_ok E (launched w) = false ->
  exists w',
    multi_template_match E image (template_img :: templates) thresholds method w
    = (Throw (std_exception "Resource temporarily unavailable"), w')
    /\ stdout w' = stdout w /\ trace w' = trace w.
Proof.
  intros Hlen Hno. unfold multi_template_match, run_body.
  rewrite Hlen, Nat.eqb_refl. cbn [negb]. rewrite <- Hlen.
  cbn [List.length]. unfold for_index. cbn [seq for_each].
  unfold bind at 1. unfold bind at 1. unfold launch_match at 1. unfold bind at 1.
  rewrite std_async_no_thread by exact Hno.
  eexists. split; [reflexivity | split; reflexivity].
Qed.

(** X14.  A matcher task that cannot be launched makes the call undefined:
    the exception leaves the block in which the GIL is released, so the
    handler, after logging the error, calls PyErr_SetString on a thread that
    does not hold the GIL. *)
Theorem cpp_multi_template_match_launch_failure image_array template_list
    threshold_list method w image mats :
  List.length template_list = List.length threshold_list ->
  pyarray_to_mat (Some image_array) = Normal image ->
  Forall2 (fun p m => pyarray_to_mat (Some (fst p)) = Normal m)
          (accepted_pairs template_list threshold_list) mats ->
  mats <> [] ->
  async_launch_ok E (launched w) = false ->
  exists r w',
    cpp_multi_template_match E image_array template_list threshold_list method w
    = (r, w')
    /\ stdout w'
       = stdout w
         ++ ["Error in multi-template matching: Resource temporarily unavailable"%string]
    /\ trace w' = trace w ++ [EvNoGIL "PyErr_SetString"].
Proof.
  intros Hlen Himage Hconv Hsome Hno.
  unfold cpp_multi_template_match. run. rewrite Himage. cbn.
  rewrite Hlen, Nat.eqb_refl. cbn. rewrite <- Hlen.
  rewrite (for_index_nth2 (fun _ => translate_item) PyObject0 PyObject0
             template_list threshold_list Hlen).
  assert (Hc : List.length (combine template_list threshold_list)
               = List.length template_list)
    by (rewrite length_combine, <- Hlen; apply Nat.min_id).
  destruct (translate_loop (combine template_list threshold_list) mats 0
              (mk_cmtm_frame [] [] [] true) w Hconv) as (w1 & Hloop & Hs & Ht & Hl).
  rewrite Hc in Hloop. rewrite Hloop. cbn.
  destruct mats as [| m mats']; [contradiction |].
  assert (Hmats : List.length (m :: mats')
                  = List.length (map (fun p : PyArrayObject * PyObject =>
                                        threshold_of (snd p))
                                   (flat_map keep_pair
                                      (combine template_list threshold_list)))).
  { rewrite length_map. symmetry. exact (Forall2_length Hconv). }
  rewrite <- Hl in Hno.
  destruct (multi_template_match_no_thread image m mats' _ method w1 Hmats Hno)
    as (w2 & Hrun & Hs2 & Ht2).
  rewrite Hrun. cbn. eexists; eexists. split; [reflexivity |]. cbn.
  split; congruence.
Qed.

(** The pending error after the translation loop. *)
Lemma translate_loop_error (pairs : list (PyObject * PyObject)) :
  forall mats k fr w,
    Forall2 (fun p m => pyarray_to_mat (Some (fst p)) = Normal m)
            (flat_map keep_pair pairs) mats ->
    exists fr' w',
      for_each (combine (seq k (List.length pairs)) pairs)
        (fun p => translate_item (fst (snd p)) (snd (snd p))) fr w
      = (Normal tt, fr', w')
      /\ PyErr w' = pending_after (flat_map keep_pair pairs) (PyErr w).
Proof.
  induction pairs as [| [template_item threshold_item] pairs IH];
    intros mats k fr w Hconv.
  - cbn. eexists; eexists; split; reflexivity.
  - cbn [List.length seq combine for_each fst snd flat_map] in *.
    unfold keep_pair at 1 in Hconv. unfold keep_pair at 1. cbn [fst snd] in *.
    unfold bind at 1. unfold translate_item at 1.
    destruct (as_array template_item) as [arr |].
    + cbn [app] in Hconv. inversion Hconv as [| p m accepted mats' Hm Hrest]; subst.
      cbn [fst] in Hm. run. rewrite Hm. unfold PyFloat_AsDouble, pending_after.
      cbn [app fold_left snd].
      destruct (as_double threshold_item) as [d |]; run;
        match goal with
        | |- context [for_each _ _ ?fr1 ?w1] =>
            destruct (IH mats' (Datatypes.S k) fr1 w1 Hrest)
              as (fr2 & w2 & Hloop & Hp)
        end;
        rewrite Hloop; cbn in Hp; eexists; eexists; (split; [reflexivity |]);
        exact Hp.
    + cbn [app] in Hconv. unfold ret at 1.
      exact (IH mats (Datatypes.S k) fr w Hconv).
Qed.

(** X16.  A threshold object that is no number does not stop the call: it is
    translated to -1 and the result list is returned, with the TypeError of
    PyFloat_AsDouble ("must be real number, not" and the name of the type)
    left pending for the last such threshold among the accepted pairs.  When
    every accepted threshold is a number the pending error is as before the
    call. *)
Theorem cpp_multi_template_match_pending_error image_array template_list
    threshold_list method w image mats :
  List.length template_list = List.length threshold_list ->
  pyarray_to_mat (Some image_array) = Normal image ->
  Forall2 (fun p m => pyarray_to_mat (Some (fst p)) = Normal m)
          (accepted_pairs template_list threshold_list) mats ->
  mats <> [] ->
  (forall n, async_launch_ok E n = true) ->
  exists results w',
    cpp_multi_template_match E image_array template_list threshold_list method w
    = (Normal (Some (PyList results)), w')
    /\ PyErr w' = pending_after (accepted_pairs template_list threshold_list) (PyErr w)
    /\ (forallb (fun p => numeric (snd p))
                (accepted_pairs template_list threshold_list) = true ->
        PyErr w' = PyErr w).
Proof.
  intros Hlen Himage Hconv Hsome Hthreads.
  assert (Hmats : List.length mats
                  = List.length (map (fun p : PyArrayObject * PyObject =>
                                        threshold_of (snd p))
                                   (accepted_pairs template_list threshold_list))).
  { rewrite length_map. symmetry. exact (Forall2_length Hconv). }
  assert (Hnum : forall l pending,
             forallb (fun p : PyArrayObject * PyObject => numeric (snd p)) l = true ->
             pending_after l pending = pending).
  { unfold pending_after, numeric.
    induction l as [| p l IH]; intros pending Hall; [reflexivity |].
    cbn in Hall |- *. destruct (as_double (snd p)); [| discriminate].
    apply IH. exact Hall. }
  enough (exists results w',
            cpp_multi_template_match E image_array template_list threshold_list
              method w = (Normal (Some (PyList results)), w')
            /\ PyErr w'
               = pending_after (accepted_pairs template_list threshold_list) (PyErr w))
    as (results & w' & Hrun & Hp).
  { exists results, w'. split; [exact Hrun |]. split; [exact Hp |].
    intros Hall. rewrite Hp. apply Hnum. exact Hall. }
  clear Hnum.
  unfold cpp_multi_template_match. run. rewrite Himage. cbn.
  rewrite Hlen, Nat.eqb_refl. cbn. rewrite <- Hlen.
  rewrite (for_index_nth2 (fun _ => translate_item) PyObject0 PyObject0
             template_list threshold_list Hlen).
  assert (Hc : List.length (combine template_list threshold_list)
               = List.length template_list)
    by (rewrite length_combine, <- Hlen; apply Nat.min_id).
  destruct (translate_loop (combine template_list threshold_list) mats 0
              (mk_cmtm_frame [] [] [] true) w Hconv) as (w1 & Hloop & _).
  destruct (translate_loop_error (combine template_list threshold_list) mats 0
              (mk_cmtm_frame [] [] [] true) w Hconv) as (fr1 & w1' & Hloop' & Hp1).
  rewrite Hloop in Hloop'. injection Hloop' as _ <-.
  rewrite Hc in Hloop. rewrite Hloop. cbn.
  destruct (multi_template_match_returns E Hthreads image mats _ method w1 Hmats)
    as (w2 & Hrun & Hp2).
  fold (accepted_pairs template_list threshold_list) in *.
  destruct mats as [| m mats']; [contradiction |].
  rewrite Hrun. cbn. eexists; eexists. split; [reflexivity |]. cbn.
  rewrite Hp2. exact Hp1.
Qed.

End MatchManyGIL.

Lemma cpp_multi_template_match_launch_failure_witness :
  exists r w',
    cpp_multi_template_match (Env_peak 1 origin (fun _ => false)) array22
      [obj_array array11] [obj_float 0.5] TM_CCOEFF_NORMED World0 = (r, w')
    /\ stdout w'
       = ["Error in multi-template matching: Resource temporarily unavailable"%string]
    /\ trace w' = [EvNoGIL "PyErr_SetString"]
    /\ defined_run w' = false.
Proof.
  destruct (cpp_multi_template_match_launch_failure
              (Env_peak 1 origin (fun _ => false)) array22
              [obj_array array11] [obj_float 0.5] TM_CCOEFF_NORMED World0
              image22 [templ11]) as (r & w' & Hrun & Hs & Ht).
  - reflexivity.
  - reflexivity.
  - repeat constructor.
  - discriminate.
  - reflexivity.
  - exists r, w'. split; [exact Hrun |]. split; [exact Hs |]. split; [exact Ht |].
    unfold defined_run. rewrite Ht. reflexivity.
Defined.

Lemma cpp_multi_template_match_pending_error_witness :
  exists results w',
    cpp_multi_template_match (Env_peak 1 origin always) array22
      [obj_array array11] [obj_none] TM_CCOEFF_NORMED World0
    = (Normal (Some (PyList results)), w')
    /\ PyErr w'
       = Some (PyExc_TypeError, "must be real number, not NoneType"%string).
Proof.
  destruct (cpp_multi_template_match_pending_error (Env_peak 1 origin always) array22
              [obj_array array11] [obj_none] TM_CCOEFF_NORMED World0 image22 [templ11])
    as (results & w' & Hrun & He & _).
  - reflexivity.
  - reflexivity.
  - repeat constructor.
  - discriminate.
  - reflexivity.
  - exists results, w'. split; [exact Hrun | exact He].
Defined.

(** *** C4: the batch entry point *)

Section Batch.

Variable E : Env.

Lemma parallel_template_match_defined image templ method threshold id w :
  exists w' evs,
    parallel_template_match E image templ method threshold id w
      = (Normal (matchOne E image templ method threshold id), w')
    /\ trace w' = trace w ++ evs
    /\ forallb (fun ev => negb (is_undefined ev)) evs = true
    /\ launched w' = launched w.
Proof.
  unfold matchOne, value, parallel_template_match. run.
  destruct (Mat_empty image || Mat_empty templ); cbn.
  { eexists; eexists; repeat split; reflexivity. }
  destruct ((rows templ >? rows image) || (cols templ >? cols image)); cbn.
  { eexists; eexists; repeat split; reflexivity. }
  destruct (cv_matchTemplate E image templ method) as [surface | [msg | msg]]; cbn;
    try (eexists; eexists; split; [reflexivity |]; cbn; rewrite <- !app_assoc;
         repeat split; reflexivity).
  destruct (cv_minMaxLoc E surface) as [[[[mn mx] lmn] lmx] | [msg | msg]]; cbn;
    eexists; eexists; (split; [reflexivity |]); cbn; rewrite <- !app_assoc;
    repeat split; reflexivity.
Qed.

Lemma std_async_match_defined {S} image templ method threshold id (s : S) w :
  async_launch_ok E (launched w) = true ->
  exists w' evs,
    std_async E (parallel_template_match E image templ method threshold id) s w
      = (Normal (Normal (matchOne E image templ method threshold id)), s, w')
    /\ trace w' = trace w ++ evs
    /\ forallb (fun ev => negb (is_undefined ev)) evs = true
    /\ launched w' = Datatypes.S (launched w).
Proof.
  intros Hok. unfold std_async. rewrite Hok.
  destruct (parallel_template_match_defined image templ method threshold id
              (mkWorld (stdout w) (trace w) (Datatypes.S (launched w)) (PyErr w)))
    as (w' & evs & -> & Ht & Hev & Hl).
  exists w', evs. cbn in Ht, Hl. auto.
Qed.

(** What the task of one screenshot does.  When a matcher task cannot be
    launched, the handler returns None and the task stays within defined
    behaviour.  When both are launched, the task asks for its dictionary on
    its own thread, without the GIL. *)
Lemma batch_item_task_runs screenshot health_tmpl respawn_tmpl w :
  exists result w' evs,
    batch_item_task E screenshot health_tmpl respawn_tmpl w = (Normal result, w')
    /\ trace w' = trace w ++ evs
    /\ if async_launch_ok E (launched w)
          && async_launch_ok E (Datatypes.S (launched w))
       then
         result
         = (if PyDict_New_ok E (Datatypes.S (Datatypes.S (launched w)))
            then Some (summary_dict
                   (matchOne E screenshot health_tmpl TM_CCOEFF_NORMED 0.7%float 0)
                   (matchOne E screenshot respawn_tmpl TM_CCOEFF_NORMED 0.8%float 1))
            else None)
         /\ In (EvNoGIL "PyDict_New") evs
       else
         result = Some Py_None
         /\ forallb (fun ev => negb (is_undefined ev)) evs = true.
Proof.
  unfold batch_item_task. run.
  destruct (async_launch_ok E (launched w)) eqn:Hl1; cbn.
  2:{ rewrite std_async_no_thread by exact Hl1. cbn.
      eexists; eexists; exists []. rewrite app_nil_r.
      repeat split; reflexivity. }
  destruct (std_async_match_defined screenshot health_tmpl
              TM_CCOEFF_NORMED 0.7%float 0 tt w Hl1) as (w1 & evs1 & -> & Ht1 & Hev1 & Hw1).
  destruct (async_launch_ok E (Datatypes.S (launched w))) eqn:Hl2; cbn.
  2:{ rewrite std_async_no_thread by (rewrite Hw1; exact Hl2). cbn.
      eexists; eexists; exists evs1. repeat split; assumption. }
  rewrite <- Hw1 in Hl2.
  destruct (std_async_match_defined screenshot respawn_tmpl
              TM_CCOEFF_NORMED 0.8%float 1 tt w1 Hl2) as (w2 & evs2 & -> & Ht2 & Hev2 & Hw2).
  rewrite Hw2, Hw1.
  destruct (PyDict_New_ok E (Datatypes.S (Datatypes.S (launched w)))); cbn;
    eexists; eexists; eexists; (split; [reflexivity |]); cbn;
    rewrite Ht2, Ht1, <- !app_assoc;
    (split; [reflexivity |]); (split; [reflexivity |]);
    apply in_or_app; right; apply in_or_app; right; left; reflexivity.
Qed.

Lemma defined_prefix (l evs : list Event) :
  forallb (fun ev => negb (is_undefined ev)) (l ++ evs) = true ->
  forallb (fun ev => negb (is_undefined ev)) l = true
  /\ forallb (fun ev => negb (is_undefined ev)) evs = true.
Proof. rewrite forallb_app. apply andb_true_iff. Qed.

(** In a defined run, the launch loop leaves one future per array item, and
    each holds the None of a task whose matcher launch failed. *)
Lemma launch_items_defined health_tmpl respawn_tmpl (items : list PyObject) :
  forall k fr w fr' w',
    for_each (combine (seq k (List.length items)) items)
      (fun p => launch_item E health_tmpl respawn_tmpl (snd p)) fr w
    = (Normal tt, fr', w') ->
    defined_run w' = true ->
    batch_results fr' = batch_results fr
    /\ defined_run w = true
    /\ exists vs,
         batch_futures fr' = batch_futures fr ++ map (fun v => Normal (Some v)) vs
         /\ Forall2 (entry_of E) (arrays_of items) vs.
Proof.
  unfold defined_run.
  induction items as [| item items IH]; intros k fr w fr' w' Hloop Hdef.
  - cbn in Hloop. injection Hloop as <- <-. split; [reflexivity |].
    split; [exact Hdef |].
    exists []. cbn. rewrite app_nil_r. split; [reflexivity | constructor].
  - cbn [List.length seq combine for_each snd] in Hloop.
    unfold bind at 1 in Hloop. unfold launch_item at 1 in Hloop.
    unfold arrays_of. cbn [flat_map]. fold (arrays_of items).
    destruct (as_array item) as [arr |].
    + revert Hloop. run.
      destruct (pyarray_to_mat (Some arr)) as [screenshot | e] eqn:Hconv;
        [| discriminate].
      unfold std_async.
      destruct (async_launch_ok E (launched w)) eqn:Houter; [| discriminate].
      destruct (batch_item_task_runs screenshot health_tmpl respawn_tmpl
                  (mkWorld (stdout w) (trace w) (Datatypes.S (launched w)) (PyErr w)))
        as (result & w1 & evs & -> & Ht & Hcase).
      cbn [launched trace] in Ht, Hcase. cbn. intros Hloop.
      destruct (IH _ _ _ _ _ Hloop Hdef) as (Hres & Hdef1 & vs & Hfut & Hall).
      unfold batch_set_gil in Hres, Hfut.
      cbn [batch_results batch_futures] in Hres, Hfut.
      rewrite Ht in Hdef1. destruct (defined_prefix _ _ Hdef1) as [Hdefw Hevs].
      destruct (async_launch_ok E (Datatypes.S (launched w))
                && async_launch_ok E (Datatypes.S (Datatypes.S (launched w))))
        eqn:Hinner.
      * destruct Hcase as [_ Hin]. exfalso.
        rewrite forallb_forall in Hevs. specialize (Hevs _ Hin). discriminate.
      * destruct Hcase as [-> _].
        split; [exact Hres |]. split; [exact Hdefw |].
        exists (Py_None :: vs). split.
        -- rewrite Hfut, <- app_assoc. reflexivity.
        -- cbn [app]. constructor; [| exact Hall].
           exists screenshot, (launched w). auto.
    + revert Hloop. run. intros Hloop. cbn [app].
      destruct (IH _ _ _ _ _ Hloop Hdef) as (Hres & Hdef1 & vs & Hfut & Hall).
      unfold batch_set_gil in Hres, Hfut. cbn in Hres, Hfut.
      split; [exact Hres |]. split; [exact Hdef1 |].
      exists vs. split; assumption.
Qed.

(** The collection loop never raises and invokes nothing. *)
Lemma collect_items_trace (fs : list (future (option PyValue))) :
  forall fr w,
  exists fr' w',
    for_each fs collect_item fr w = (Normal tt, fr', w')
    /\ trace w' = trace w /\ PyErr w' = PyErr w /\ launched w' = launched w.
Proof.
  induction fs as [| f fs IH]; intros fr w.
  - cbn. eexists; eexists; repeat split; reflexivity.
  - cbn [for_each]. unfold bind at 1. unfold collect_item at 1. run.
    destruct f as [[v |] | e]; cbn;
      match goal with
      | |- context [for_each fs collect_item ?fr1 ?w1] =>
          destruct (IH fr1 w1) as (fr2 & w2 & -> & Ht & Hp & Hl)
      end;
      eexists; eexists; (split; [reflexivity |]); cbn in Ht, Hp, Hl; auto.
Qed.

(** It appends the values of the futures that hold one. *)
Lemma collect_items_loop (vs : list PyValue) :
  forall fr w,
    for_each (map (fun v => Normal (Some v)) vs) collect_item fr w
    = (Normal tt, mk_batch_frame (batch_results fr ++ vs) (batch_futures fr)
                    (match vs with [] => batch_gil fr | _ :: _ => false end), w).
Proof.
  induction vs as [| v vs IH]; intros fr w.
  - cbn. rewrite app_nil_r. destruct fr. reflexivity.
  - cbn [map for_each]. unfold bind at 1. unfold collect_item at 1. run.
    rewrite IH. cbn. rewrite <- app_assoc. destruct vs; reflexivity.
Qed.

Lemma arrays_of_length (l : list PyObject) :
  (List.length (arrays_of l) <= List.length l)%nat.
Proof.
  unfold arrays_of. induction l as [| o l IH]; cbn [flat_map]; [apply Nat.le_refl |].
  rewrite length_app. destruct (as_array o); cbn; lia.
Qed.

(** C4 (amended).  Whenever the batch entry point returns a list in a run
    that stays within defined behaviour, the two templates converted and the
    list has exactly one entry per array item of the input, in input order, so
    its length is at most the input length; each entry is the placeholder
    None, left by the task of an item that was launched and one of whose two
    matcher tasks could not be: a failed item is reported, not dropped. *)
Theorem cpp_batch_process_screenshots_entries screenshot_list health_template
    respawn_template health_threshold w entries w' :
  cpp_batch_process_screenshots E screenshot_list health_template respawn_template
    health_threshold w = (Normal (Some (PyList entries)), w') ->
  defined_run w' = true ->
  (exists health_tmpl, pyarray_to_mat (Some health_template) = Normal health_tmpl)
  /\ (exists respawn_tmpl, pyarray_to_mat (Some respawn_template) = Normal respawn_tmpl)
  /\ Forall2 (entry_of E) (arrays_of screenshot_list) entries
  /\ (List.length entries <= List.length screenshot_list)%nat.
Proof.
  unfold cpp_batch_process_screenshots. run.
  destruct (pyarray_to_mat (Some health_template)) as [health_tmpl | e1]; cbn;
    [| discriminate].
  destruct (pyarray_to_mat (Some respawn_template)) as [respawn_tmpl | e2]; cbn;
    [| discriminate].
  rewrite (for_index_nth (fun _ => launch_item E health_tmpl respawn_tmpl) PyObject0).
  match goal with
  | |- context [for_each ?l ?f ?fr w] =>
      destruct (for_each l f fr w) as [[[[] | e] fr1] w1] eqn:Hloop; cbn
  end.
  2:{ destruct (batch_gil fr1); discriminate. }
  destruct (collect_items_trace (batch_futures fr1) fr1 w1)
    as (fr2 & w2 & Hcollect & Ht2 & _ & _).
  rewrite Hcollect. cbn. intros [= <- <-] Hdef.
  unfold defined_run in Hdef. cbn in Hdef. rewrite Ht2 in Hdef.
  destruct (launch_items_defined _ _ _ _ _ _ _ _ Hloop Hdef)
    as (Hres & _ & vs & Hfut & Hall).
  cbn in Hres, Hfut. rewrite Hfut, collect_items_loop in Hcollect.
  injection Hcollect as <- _. cbn. rewrite Hres. cbn.
  split; [eexists; reflexivity |]. split; [eexists; reflexivity |].
  split; [exact Hall |].
  rewrite <- (Forall2_length Hall). apply arrays_of_length.
Qed.

End Batch.

Lemma cpp_batch_process_screenshots_entries_witness :
  (exists health_tmpl, pyarray_to_mat (Some array11) = Normal health_tmpl)
  /\ (exists respawn_tmpl, pyarray_to_mat (Some array11) = Normal respawn_tmpl)
  /\ Forall2 (entry_of (Env_peak 1 origin first_only))
       (arrays_of [obj_none; obj_array array22]) [Py_None]
  /\ (1 <= 2)%nat.
Proof.
  apply (cpp_batch_process_screenshots_entries (Env_peak 1 origin first_only)
           [obj_none; obj_array array22] array11 array11 0.3%float World0 [Py_None]
           (world (cpp_batch_process_screenshots (Env_peak 1 origin first_only)
                     [obj_none; obj_array array22] array11 array11 0.3%float World0)));
    reflexivity.
Defined.

(** The claim as first written fails when the task of an item fails: with a
    thread for the task of the screenshot but none for its two matcher tasks,
    the item is not dropped; the list holds None at its position.  The run
    makes no C API call without the GIL. *)
Lemma cpp_batch_process_screenshots_failed_item_reported :
  exists w',
    cpp_batch_process_screenshots (Env_peak 1 origin first_only)
      [obj_array array22] array11 array11 0.3%float World0
    = (Normal (Some (PyList [Py_None])), w')
    /\ stdout w'
       = ["Error in batch processing item: Resource temporarily unavailable";
          "Batch processing completed for 1 screenshots"]%string
    /\ defined_run w' = true.
Proof.
  eexists. repeat split; reflexivity.
Qed.

(** *** The batch entry point: the remaining paths *)

Section BatchMore.

Variable E : Env.

Lemma undefined_in api (w : World) :
  In (EvNoGIL api) (trace w) -> defined_run w = false.
Proof.
  unfold defined_run. intros Hin.
  destruct (forallb _ (trace w)) eqn:Hall; [| reflexivity].
  rewrite forallb_forall in Hall. specialize (Hall _ Hin). discriminate.
Qed.

(** Launching the task of one item only ever adds to the trace. *)
Lemma launch_item_trace health_tmpl respawn_tmpl item fr w :
  exists r fr' w' evs,
    launch_item E health_tmpl respawn_tmpl item fr w = (r, fr', w')
    /\ trace w' = trace w ++ evs.
Proof.
  unfold launch_item. run.
  destruct (as_array item) as [arr |]; cbn.
  2:{ eexists; eexists; eexists; exists []. rewrite app_nil_r.
      split; reflexivity. }
  destruct (pyarray_to_mat (Some arr)) as [screenshot | e]; cbn.
  2:{ eexists; eexists; eexists; exists []. rewrite app_nil_r.
      split; reflexivity. }
  unfold std_async.
  destruct (async_launch_ok E (launched w)); cbn.
  2:{ eexists; eexists; eexists; exists []. rewrite app_nil_r.
      split; reflexivity. }
  destruct (batch_item_task_runs E screenshot health_tmpl respawn_tmpl
              (mkWorld (stdout w) (trace w) (Datatypes.S (launched w)) (PyErr w)))
    as (result & w1 & evs & -> & Ht & _).
  cbn. eexists; eexists; eexists; exists evs. split; [reflexivity | exact Ht].
Qed.

Lemma launch_items_trace health_tmpl respawn_tmpl (items : list PyObject) :
  forall k fr w,
  exists r fr' w' evs,
    for_each (combine (seq k (List.length items)) items)
      (fun p => launch_item E health_tmpl respawn_tmpl (snd p)) fr w = (r, fr', w')
    /\ trace w' = trace w ++ evs.
Proof.
  induction items as [| item items IH]; intros k fr w.
  - cbn. eexists; eexists; eexists; exists []. rewrite app_nil_r.
    split; reflexivity.
  - cbn [List.length seq combine for_each snd]. unfold bind at 1.
    destruct (launch_item_trace health_tmpl respawn_tmpl item fr w)
      as ([[] | e] & fr1 & w1 & evs1 & -> & Ht1).
    + destruct (IH (Datatypes.S k) fr1 w1) as (r & fr2 & w2 & evs2 & -> & Ht2).
      exists r, fr2, w2, (evs1 ++ evs2). split; [reflexivity |].
      rewrite Ht2, Ht1, app_assoc. reflexivity.
    + eexists; eexists; eexists; exists evs1. split; [reflexivity | exact Ht1].
Qed.

(** The first array item whose task and two matcher tasks are all launched
    makes the launch loop leave the defined behaviour. *)
Lemma launch_items_undefined health_tmpl respawn_tmpl item arr screenshot rest
    (skipped : list PyObject) :
  as_array item = Some arr ->
  pyarray_to_mat (Some arr) = Normal screenshot ->
  Forall (fun o => as_array o = None) skipped ->
  forall k fr w,
    async_launch_ok E (launched w) = true ->
    async_launch_ok E (Datatypes.S (launched w)) = true ->
    async_launch_ok E (Datatypes.S (Datatypes.S (launched w))) = true ->
    exists r fr' w',
      for_each (combine (seq k (List.length (skipped ++ item :: rest)))
                        (skipped ++ item :: rest))
        (fun p => launch_item E health_tmpl respawn_tmpl (snd p)) fr w = (r, fr', w')
      /\ In (EvNoGIL "PyDict_New") (trace w').
Proof.
  intros Harr Hconv Hskip.
  induction Hskip as [| o skipped Ho _ IH]; intros k fr w Hl0 Hl1 Hl2.
  - cbn [app List.length seq combine for_each snd]. unfold bind at 1.
    unfold launch_item at 1. run. rewrite Harr. cbn. rewrite Hconv. cbn.
    unfold std_async. rewrite Hl0.
    destruct (batch_item_task_runs E screenshot health_tmpl respawn_tmpl
                (mkWorld (stdout w) (trace w) (Datatypes.S (launched w)) (PyErr w)))
      as (result & w1 & evs & -> & Ht & Hcase).
    cbn [launched trace] in Ht, Hcase. rewrite Hl1, Hl2 in Hcase.
    destruct Hcase as [_ Hin]. cbn.
    match goal with
    | |- context [for_each ?l ?f ?fr1 w1] =>
        destruct (launch_items_trace health_tmpl respawn_tmpl rest (Datatypes.S k) fr1 w1)
          as (r & fr2 & w2 & evs2 & Hrest & Ht2)
    end.
    rewrite Hrest. exists r, fr2, w2. split; [reflexivity |].
    rewrite Ht2, Ht. apply in_or_app. left. apply in_or_app. right. exact Hin.
  - cbn [app List.length seq combine for_each snd]. unfold bind at 1.
    unfold launch_item at 1. run. rewrite Ho. cbn.
    apply IH; assumption.
Qed.

(** X17.  The summary path of the batch entry point is outside the defined
    behaviour: as soon as the task of one array item and its two matcher tasks
    are launched, the task creates its dictionary on its own thread, which
    does not hold the GIL.  Whatever the call then returns, the run has made a
    C API call without the GIL. *)
Theorem cpp_batch_process_screenshots_dictionary_without_gil skipped item rest
    health_template respawn_template health_threshold w health_tmpl respawn_tmpl
    arr screenshot :
  pyarray_to_mat (Some health_template) = Normal health_tmpl ->
  pyarray_to_mat (Some respawn_template) = Normal respawn_tmpl ->
  Forall (fun o => as_array o = None) skipped ->
  as_array item = Some arr ->
  pyarray_to_mat (Some arr) = Normal screenshot ->
  async_launch_ok E (launched w) = true ->
  async_launch_ok E (Datatypes.S (launched w)) = true ->
  async_launch_ok E (Datatypes.S (Datatypes.S (launched w))) = true ->
  exists r w',
    cpp_batch_process_screenshots E (skipped ++ item :: rest) health_template
      respawn_template health_threshold w = (r, w')
    /\ In (EvNoGIL "PyDict_New") (trace w')
    /\ defined_run w' = false.
Proof.
  intros Hh Hr Hskip Harr Hconv Hl0 Hl1 Hl2.
  assert (Hgoal : exists r w',
             cpp_batch_process_screenshots E (skipped ++ item :: rest) health_template
               respawn_template health_threshold w = (r, w')
             /\ In (EvNoGIL "PyDict_New") (trace w')).
  2:{ destruct Hgoal as (r & w' & Hrun & Hin). exists r, w'.
      split; [exact Hrun |]. split; [exact Hin |].
      apply undefined_in with (api := "PyDict_New"%string). exact Hin. }
  unfold cpp_batch_process_screenshots. run. rewrite Hh. cbn. rewrite Hr. cbn.
  rewrite (for_index_nth (fun _ => launch_item E health_tmpl respawn_tmpl) PyObject0).
  match goal with
  | |- context [for_each ?l ?f ?fr w] =>
      destruct (launch_items_undefined health_tmpl respawn_tmpl item arr screenshot
                  rest skipped Harr Hconv Hskip 0%nat fr w Hl0 Hl1 Hl2)
        as ([[] | e] & fr1 & w1 & Hloop & Hin)
  end; rewrite Hloop; cbn.
  - destruct (collect_items_trace (batch_futures fr1) fr1 w1)
      as (fr2 & w2 & -> & Ht2 & _ & _).
    cbn. eexists; eexists. split; [reflexivity |]. cbn. rewrite Ht2. exact Hin.
  - destruct (batch_gil fr1); cbn; eexists; eexists; (split; [reflexivity |]); cbn;
      [exact Hin | apply in_or_app; left; exact Hin].
Qed.

(** X18.  A template that does not convert is an aggregate failure: the batch
    entry point returns NULL with a RuntimeError carrying the message of the
    conversion, before any screenshot is looked at (nothing is invoked or
    launched). *)
Theorem cpp_batch_process_screenshots_bad_template screenshot_list health_template
    respawn_template health_threshold w e :
  pyarray_to_mat (Some health_template) = Throw e
  \/ ((exists health_tmpl, pyarray_to_mat (Some health_template) = Normal health_tmpl)
      /\ pyarray_to_mat (Some respawn_template) = Throw e) ->
  exists w',
    cpp_batch_process_screenshots E screenshot_list health_template respawn_template
      health_threshold w = (Normal None, w')
    /\ PyErr w'
       = Some (PyExc_RuntimeError, ("Error in batch processing: " ++ what e)%string)
    /\ trace w' = trace w
    /\ launched w' = launched w.
Proof.
  intros [Hh | [[health_tmpl Hh] Hr]]; unfold cpp_batch_process_screenshots; run;
    rewrite Hh; cbn; [| rewrite Hr; cbn]; eexists; repeat split; reflexivity.
Qed.

End BatchMore.

Lemma cpp_batch_process_screenshots_dictionary_without_gil_witness :
  exists r w',
    cpp_batch_process_screenshots (Env_peak 1 origin always)
      ([obj_none] ++ obj_array array22 :: [obj_array array22]) array11 array11
      0.3%float World0 = (r, w')
    /\ In (EvNoGIL "PyDict_New") (trace w')
    /\ defined_run w' = false.
Proof.
  apply (cpp_batch_process_screenshots_dictionary_without_gil (Env_peak 1 origin always)
           [obj_none] (obj_array array22) [obj_array array22] array11 array11
           0.3%float World0 templ11 templ11 array22 image22);
    try reflexivity.
  repeat constructor.
Defined.

Lemma cpp_batch_process_screenshots_bad_template_witness :
  exists w',
    cpp_batch_process_screenshots (Env_peak 1 origin always)
      [obj_array array22] array11 array_2ch 0.3%float World0 = (Normal None, w')
    /\ PyErr w'
       = Some (PyExc_RuntimeError,
               "Error in batch processing: Unsupported number of channels"%string)
    /\ trace w' = []
    /\ launched w' = 0%nat.
Proof.
  apply (cpp_batch_process_screenshots_bad_template (Env_peak 1 origin always)
           [obj_array array22] array11 array_2ch 0.3%float World0
           (std_exception "Unsupported number of channels")).
  right. split; [exists templ11 |]; reflexivity.
Defined.
